(** * aks-periscope: event trace collector, trace collectors, exporter

    A shallow embedding of the Go code of the node diagnostic agent:
    - [gadgets]    : pkg/collector/gadgets, the concurrent event sink
                     ([IGTraceContainerCollector]);
    - [collector]  : the DNS and TCP trace collectors;
    - [systemperf] : the SystemPerf collector;
    - [exporter]   : the Azure blob exporter;
    with [Go], [strings], [utils], [ext] and [eventtypes] for what they
    build on, and [sample] for concrete hosts, clocks and events.

    Go values are modelled as follows: [string] for Go strings, [gmap string
    string] for [map[string]string], [option error] for an [error] result
    ([None] is [nil]), an explicit state for everything a method mutates, and
    an explicit log of the calls made to external libraries. *)

From stdpp Require Import gmap strings list fin_maps.
From Stdlib Require Import ZArith Ascii DecimalString DecimalPos DecimalZ.

Local Open Scope Z_scope.

(** ** Go runtime: errors, panics, state passing, deferred calls *)

Module Go.

(** A Go [error]. [errors.New msg] carries a message; [fmt.Errorf] with a
    trailing [%w] verb carries the text before the verb and the wrapped
    operand; [Errorf_w_nil] is the same call with a nil operand. [opaque]
    is an error made by an external library. *)
Inductive error : Type :=
| opaque (msg : string)
| errors_New (msg : string)
| Errorf_w (prefix : string) (cause : error)
| Errorf_w_nil (prefix : string).

(** [err.Error()]. A nil operand of [%w] is printed as [%!w(<nil>)]. *)
Fixpoint Error (e : error) : string :=
  match e with
  | opaque msg => msg
  | errors_New msg => msg
  | Errorf_w prefix cause => prefix +:+ Error cause
  | Errorf_w_nil prefix => prefix +:+ "%!w(<nil>)"
  end.

(** [errors.Unwrap]. *)
Definition Unwrap (e : error) : option error :=
  match e with
  | Errorf_w _ cause => Some cause
  | _ => None
  end.

(** [fmt.Errorf(prefix + "%w", err)] for an [err] that may be nil. *)
Definition Errorf (prefix : string) (err : option error) : error :=
  match err with
  | Some cause => Errorf_w prefix cause
  | None => Errorf_w_nil prefix
  end.

(** The result of a call that may panic. *)
Inductive outcome (A : Type) : Type :=
| Returned (a : A)
| Panicked (msg : string).
Arguments Returned {A} a.
Arguments Panicked {A} msg.

(** State passing: a computation over a state [S] returning an [A]. *)
Definition M (S A : Type) : Type := S → A * S.

Definition ret {S A} (a : A) : M S A := λ s, (a, s).
Definition bind {S A B} (m : M S A) (k : A → M S B) : M S B :=
  λ s, let '(a, s') := m s in k a s'.
Definition exec {S A} (m : M S A) (s : S) : S := (m s).2.
Definition eval {S A} (m : M S A) (s : S) : A := (m s).1.

(** A [for ... range] loop whose body has no early exit. *)
Fixpoint for_range {S A} (l : list A) (body : A → M S unit) : M S unit :=
  match l with
  | [] => ret tt
  | a :: l' => bind (body a) (λ _, for_range l' body)
  end.

(** The body of a function with [defer] statements. A frame holds the state
    and the deferred calls, the most recent first. A step of the body either
    goes on with a value ([inl]) or returns from the function ([inr]). *)
Record Frame (S : Type) : Type := {
  proc : S;
  deferred : list (M S unit)
}.
Arguments proc {S} _.
Arguments deferred {S} _.

Definition Fn (S R A : Type) : Type := Frame S → (A + R) * Frame S.

Definition fret {S R A} (a : A) : Fn S R A := λ f, (inl a, f).
Definition fbind {S R A B} (m : Fn S R A) (k : A → Fn S R B) : Fn S R B :=
  λ f, match m f with
       | (inl a, f') => k a f'
       | (inr r, f') => (inr r, f')
       end.
Definition Return {S R A} (r : R) : Fn S R A := λ f, (inr r, f).
Definition defer {S R} (d : M S unit) : Fn S R unit :=
  λ f, (inl tt, {| proc := proc f; deferred := d :: deferred f |}).
Definition lift {S R A} (m : M S A) : Fn S R A :=
  λ f, let '(a, s) := m (proc f) in
       (inl a, {| proc := s; deferred := deferred f |}).

(** Calling the function: the body runs on a frame with no deferred call,
    and whichever way it returns the deferred calls then run, last deferred
    first. *)
Definition func {S R} (body : Fn S R R) : M S R :=
  λ s, let '(r, f) := body {| proc := s; deferred := [] |} in
       (match r with inl r => r | inr r => r end,
        exec (for_range (deferred f) (λ d, d)) (proc f)).

End Go.

Declare Scope go_scope.
Delimit Scope go_scope with go.
Notation "x <- m ;; k" := (Go.bind m (λ x, k))
  (at level 100, m at next level, right associativity) : go_scope.
Notation "m ;;; k" := (Go.bind m (λ _, k))
  (at level 100, right associativity) : go_scope.

Declare Scope fn_scope.
Delimit Scope fn_scope with fn.
Notation "x <- m ;; k" := (Go.fbind m (λ x, k))
  (at level 100, m at next level, right associativity) : fn_scope.
Notation "m ;;; k" := (Go.fbind m (λ _, k))
  (at level 100, right associativity) : fn_scope.

(** ** Strings *)

Module strings.

(** [strings.Join]. *)
Fixpoint Join (elems : list string) (sep : string) : string :=
  match elems with
  | [] => ""
  | [e] => e
  | e :: rest => e +:+ sep +:+ Join rest sep
  end.

(** [strings.Replace(s, ":", "-", -1)]: every colon becomes a dash. *)
Fixpoint ReplaceColons (s : string) : string :=
  match s with
  | EmptyString => EmptyString
  | String c rest =>
      String (if Ascii.eqb c ":"%char then "-"%char else c) (ReplaceColons rest)
  end.

(** whether a character occurs in a string *)
Fixpoint has_char (c : ascii) (s : string) : bool :=
  match s with
  | EmptyString => false
  | String c' rest => Ascii.eqb c c' || has_char c rest
  end.

(** the characters of Kubernetes object names exclude the space and the
    slash *)
Definition plain_name (s : string) : bool :=
  negb (has_char " "%char s) && negb (has_char "/"%char s).

(** a message names a value when the value occurs in it *)
Definition mentions (msg value : string) : Prop :=
  ∃ before after, msg = before +:+ value +:+ after.

End strings.

(** ** pkg/utils *)

Module utils.

Record RuntimeInfo : Type := {
  OSIdentifier : string;
  HostNodeName : string;
  CollectorList : list string;
  KubernetesObjects : list string;
  NodeLogs : list string;
  ContainerLogsNamespaces : list string;
  StorageAccountName : string;
  StorageSasKey : string;
  StorageContainerName : string;
  StorageSasKeyType : string
}.

(** Modelled from the spec: [utils.Contains], whose source file is not
    among the sources; the exclusion list "contains" a value when the value
    is one of its entries. *)
Definition Contains (flagsList : list string) (flag : string) : bool :=
  existsb (String.eqb flag) flagsList.

End utils.

(** ** External libraries: the kernel probes and the container runtime *)

Module ext.

(** The fields of [containercollection.Container] the agent reads. *)
Record Container : Type := {
  Namespace : string;
  Podname : string;
  Name : string;
  Pid : Z;
  HostNetwork : bool
}.

(** The calls the trace collectors make to external libraries. *)
Inductive Call : Type :=
| rlimit_RemoveMemlock
| ContainerCollection_Initialize
| ContainerCollection_Close
| dnstracer_NewTracer
| dnstracer_Close
| networktracer_ConnectToContainerCollection
| conn_Close
| tcptracer_NewTracer
| standardtracer_NewTracer
| tracer_Stop
| waiter
| log_Printf (msg : string).

(** The resources a trace collector holds: the Registry Adapter (the
    container collection), the probe (the tracer) and the connection of the
    probe to the adapter. A call that succeeds may acquire one, a closing
    call releases one. *)
Inductive Resource : Type :=
| registry_adapter
| probe
| probe_connection.

Definition acquires (c : Call * option Go.error) : option Resource :=
  match c with
  | (ContainerCollection_Initialize, None) => Some registry_adapter
  | (dnstracer_NewTracer, None) => Some probe
  | (tcptracer_NewTracer, None) => Some probe
  | (standardtracer_NewTracer, None) => Some probe
  | (networktracer_ConnectToContainerCollection, None) => Some probe_connection
  | _ => None
  end.

Definition releases (c : Call * option Go.error) : option Resource :=
  match c.1 with
  | ContainerCollection_Close => Some registry_adapter
  | dnstracer_Close => Some probe
  | tracer_Stop => Some probe
  | conn_Close => Some probe_connection
  | _ => None
  end.

(** A log of calls, from [before] to [after], acquires resources in the
    given order, as far as it gets, and ends with a teardown that releases
    what was acquired, in reverse order of acquisition; nothing is released
    earlier and the teardown does nothing else. *)
Definition torn_down_in_reverse (order : list Resource)
    (before after : list (Call * option Go.error)) : Prop :=
  ∃ body teardown,
    after = before ++ body ++ teardown
    ∧ omap releases body = []
    ∧ omap acquires body `prefix_of` order
    ∧ omap releases teardown = rev (omap acquires body)
    ∧ length teardown = length (omap acquires body).

(** What the host answers to the calls that may fail, and the events the
    probes deliver while the waiter runs. *)
Record Host (Event : Type) : Type := {
  RemoveMemlock : option Go.error;
  Initialize : option Go.error;
  dns_NewTracer : option Go.error;
  ConnectToContainerCollection : option Go.error;
  tcp_NewTracer : option Go.error;
  standard_NewTracer : option Go.error;
  dns_window : list (Container * Event);
  tcp_window : list Event
}.
Arguments RemoveMemlock {Event} _.
Arguments Initialize {Event} _.
Arguments dns_NewTracer {Event} _.
Arguments ConnectToContainerCollection {Event} _.
Arguments tcp_NewTracer {Event} _.
Arguments standard_NewTracer {Event} _.
Arguments dns_window {Event} _.
Arguments tcp_window {Event} _.

(** The wall clock and the formatting of the standard library: [wall i] is
    the nanosecond reading returned by the [i]-th call of [time.Now], and
    [RFC3339Nano t] is [t.Format(time.RFC3339Nano)]. *)
Class Time : Type := {
  wall : nat → Z;
  RFC3339Nano : Z → string
}.

End ext.

(** ** pkg/collector/gadgets *)

Module gadgets.
Import ext.

(** The bucket of one trace: event key to event content. *)
Abbreviation Bucket := (gmap string string).

(** What the methods of [IGTraceContainerCollector] read and write: the
    contents of the collector's [sync.Map], and of the process around it the
    number of [time.Now] calls made so far and the external calls made so
    far, each with its result, the oldest first. *)
Record State : Type := {
  data : gmap string Bucket;
  ticks : nat;
  calls : list (Call * option Go.error)
}.

(** [NewIGTraceContainerCollector]: an empty [sync.Map]. *)
Definition NewIGTraceContainerCollector : State :=
  {| data := ∅; ticks := 0; calls := [] |}.

(** an external call and its result, appended to the log *)
Definition call (c : Call) (result : option Go.error) : Go.M State (option Go.error) :=
  λ s, (result, {| data := data s; ticks := ticks s; calls := calls s ++ [(c, result)] |}).

Section Sink.
Context `{Time}.

Definition time_Now : Go.M State Z :=
  λ s, (wall (ticks s), {| data := data s; ticks := S (ticks s); calls := calls s |}).

(** The text [info] builds from a container and a formatted time. *)
Definition info_text (container : option Container) (now : string) : string :=
  match container with
  | None => now
  | Some c =>
      Namespace c +:+ " /namespaces/" +:+ Podname c +:+ "/pods/" +:+ Name c
        +:+ "/containers/" +:+ now +:+ " "
  end.

Definition info (container : option Container) : Go.M State string :=
  (t <- time_Now ;; Go.ret (info_text container (RFC3339Nano t)))%go.

(** [sync.Map.LoadOrStore] and [sync.Map.Store] on the collector's map. *)
Definition LoadOrStore (key : string) (value : Bucket) : Go.M State (Bucket * bool) :=
  λ s, match data s !! key with
       | Some actual => ((actual, true), s)
       | None => ((value, false),
                  {| data := <[key := value]> (data s); ticks := ticks s; calls := calls s |})
       end.

Definition Store (key : string) (value : Bucket) : Go.M State unit :=
  λ s, (tt, {| data := <[key := value]> (data s); ticks := ticks s; calls := calls s |}).

(** [PublishEvent]. The argument of [LoadOrStore] is evaluated first, so
    [info] is called once when the bucket is created and twice when it
    exists; in the second case the map held by the [sync.Map] is updated in
    place and stored again. *)
Definition PublishEvent (traceName : string) (container : option Container)
    (eventDetails : string) : Go.M State unit :=
  (k0 <- info container ;;
   r <- LoadOrStore traceName {[ k0 := eventDetails ]} ;;
   if r.2 then
     k1 <- info container ;;
     Store traceName (<[k1 := eventDetails]> r.1)
   else Go.ret tt)%go.

(** The key under which [PublishEvent] files its event: the text of
    [info] at the reading of the [time.Now] call whose result is kept, the
    first call when the bucket is created and the second when it exists. *)
Definition derived_key (traceName : string) (container : option Container)
    (s : State) : string :=
  info_text container
    (RFC3339Nano (wall (match data s !! traceName with
                        | Some _ => S (ticks s)
                        | None => ticks s
                        end))).

(** A sequence of [PublishEvent] calls, one per (trace name, container,
    content), in order. *)
Definition publish_all (events : list (string * option Container * string))
    : Go.M State unit :=
  Go.for_range events (λ e, PublishEvent e.1.1 e.1.2 e.2).

End Sink.

(** [InitContainerCollection]. The result is the error; the collection
    itself has no content the collectors read. The callback the function
    puts in front of the options writes a log line each time the library
    reports a container added or removed; the library calls it, from within
    [Initialize] and for as long as the collection is open, and these lines
    are not among the calls recorded here: [calls] holds the calls the code
    of the collectors makes itself, so nothing is to be read from it about
    which log lines the process writes. *)
Definition InitContainerCollection {Event} (h : Host Event) : Go.M State (option Go.error) :=
  (e1 <- call rlimit_RemoveMemlock (RemoveMemlock h) ;;
   match e1 with
   | Some err => Go.ret (Some (Go.Errorf_w "failed to remove memlock: " err))
   | None =>
       e2 <- call ContainerCollection_Initialize (Initialize h) ;;
       match e2 with
       | Some err =>
           Go.ret (Some (Go.Errorf_w "failed to initialize container collection: " err))
       | None => Go.ret None
       end
   end)%go.

(** [GetTracerData]: the type assertion on the nil interface returned by a
    failed [Load] panics. *)
Definition GetTracerData (tracerName : string) (s : State) : Go.outcome Bucket :=
  match data s !! tracerName with
  | Some events => Go.Returned events
  | None => Go.Panicked "interface conversion: interface {} is nil, not map[string]string"
  end.

End gadgets.

(** ** inspektor-gadget event types *)

Module eventtypes.

(** The common part of a trace event, and [payload] for the fields of the
    protocol (DNS or TCP). *)
Record Event : Type := {
  Node : string;
  Namespace : string;
  Pod : string;
  Container : string;
  payload : string
}.

(** [eventtypes.EventString], the JSON text of an event. *)
Class Codec : Type := {
  EventString : Event → string
}.

End eventtypes.

(** ** pkg/collector: the DNS and TCP trace collectors *)

Module collector.
Import ext.

Section Trace.
Context `{Time} `{eventtypes.Codec}.
Variable runtimeInfo : utils.RuntimeInfo.
Variable h : Host eventtypes.Event.

(** a deferred [Close] or [Stop]: the call is made, nothing is returned *)
Definition closing (c : Call) : Go.M gadgets.State unit :=
  (gadgets.call c None ;;; Go.ret tt)%go.

(** *** InspektorGadgetDNSTraceCollector *)

Definition dns_GetName : string := "ig-dnstrace".

(** [dnsEventCallback]. [event] is the callback's own copy; reading
    [container.HostNetwork] through a nil pointer panics. *)
Definition dnsEventCallback (container : option Container)
    (event : eventtypes.Event) : Go.M gadgets.State (Go.outcome unit) :=
  let event :=
    {| eventtypes.Node := utils.HostNodeName runtimeInfo;
       eventtypes.Namespace := eventtypes.Namespace event;
       eventtypes.Pod := eventtypes.Pod event;
       eventtypes.Container := eventtypes.Container event;
       eventtypes.payload := eventtypes.payload event |} in
  match container with
  | None =>
      Go.ret (Go.Panicked "runtime error: invalid memory address or nil pointer dereference")
  | Some c =>
      let event :=
        if negb (HostNetwork c) then
          {| eventtypes.Node := eventtypes.Node event;
             eventtypes.Namespace := Namespace c;
             eventtypes.Pod := Podname c;
             eventtypes.Container := Name c;
             eventtypes.payload := eventtypes.payload event |}
        else event in
      (gadgets.PublishEvent dns_GetName container (eventtypes.EventString event) ;;;
       Go.ret (Go.Returned tt))%go
  end.

(** [collector.waiter()] of the DNS collector: while it runs, the connected
    tracer calls the callback for each event of the window. *)
Definition dns_wait : Go.M gadgets.State unit :=
  (gadgets.call waiter None ;;;
   Go.for_range (dns_window h)
     (λ ce, _ <- dnsEventCallback (Some ce.1) ce.2 ;; Go.ret tt))%go.

Definition dns_Collect : Go.M gadgets.State (option Go.error) :=
  Go.func
    (err <- Go.lift (gadgets.InitContainerCollection h) ;;
     match err with
     | Some err =>
         Go.Return (Some (Go.Errorf_w "failed to initialize container collection: " err))
     | None =>
         Go.defer (closing ContainerCollection_Close) ;;;
         err <- Go.lift (gadgets.call dnstracer_NewTracer (dns_NewTracer h)) ;;
         match err with
         | Some err => Go.Return (Some (Go.Errorf_w "failed to start dns tracer: " err))
         | None =>
             Go.defer (closing dnstracer_Close) ;;;
             err <- Go.lift (gadgets.call networktracer_ConnectToContainerCollection
                               (ConnectToContainerCollection h)) ;;
             match err with
             | Some err =>
                 Go.Return
                   (Some (Go.Errorf_w "failed to connect network tracer - dns tracer: " err))
             | None =>
                 Go.defer (closing conn_Close) ;;;
                 Go.lift dns_wait ;;;
                 Go.Return None
             end
         end
     end)%fn.

(** *** InspektorGadgetTCPTraceCollector *)

Definition tcp_GetName : string := "ig-tcptrace".

Definition tcpEventCallback (event : eventtypes.Event) : Go.M gadgets.State unit :=
  gadgets.PublishEvent tcp_GetName None (eventtypes.EventString event).

Definition tcp_wait : Go.M gadgets.State unit :=
  (gadgets.call waiter None ;;; Go.for_range (tcp_window h) tcpEventCallback)%go.

Definition tcp_Collect : Go.M gadgets.State (option Go.error) :=
  Go.func
    (err <- Go.lift (gadgets.InitContainerCollection h) ;;
     match err with
     | Some err =>
         Go.Return (Some (Go.Errorf_w "failed to initialize container collection: " err))
     | None =>
         Go.defer (closing ContainerCollection_Close) ;;;
         err <- Go.lift (gadgets.call tcptracer_NewTracer (tcp_NewTracer h)) ;;
         match err with
         | Some err =>
             Go.lift (gadgets.call
                        (log_Printf ("Failed to create core tracer, falling back to standard one: "
                                     +:+ Go.Error err)) None) ;;;
             err <- Go.lift (gadgets.call standardtracer_NewTracer (standard_NewTracer h)) ;;
             match err with
             | Some err => Go.Return (Some (Go.Errorf_w "failed to create a tracer: " err))
             | None => Go.fret tt
             end
         | None => Go.fret tt
         end ;;;
         Go.defer (closing tracer_Stop) ;;;
         Go.lift tcp_wait ;;;
         Go.Return None
     end)%fn.

End Trace.
End collector.

(** ** pkg/collector: the SystemPerf collector *)

Module systemperf.

(** What the metrics client returns for a node or a container: its name,
    [Usage.Cpu().MilliValue()] and the pair [Usage.Memory().AsInt64()]. *)
Record Usage : Type := {
  Name : string;
  Cpu_MilliValue : Z;
  Memory_AsInt64 : Z * bool
}.

Record NodeMetrics : Type := {
  NodeName : string;
  node_CPUUsage : Z;
  node_MemoryUsage : Z
}.

Record PodMetrics : Type := {
  ContainerName : string;
  pod_CPUUsage : Z;
  pod_MemoryUsage : Z
}.

(** The answers of the cluster: [metrics.NewForConfig], the two [List]
    calls (each a value and an error) and, for every pod, its containers. *)
Record Cluster : Type := {
  NewForConfig : option Go.error;
  NodeMetricses_List : list Usage * option Go.error;
  PodMetricses_List : list (list Usage) * option Go.error
}.

(** [json.Marshal] at the two types it is called at. *)
Class Json : Type := {
  Marshal_nodes : list NodeMetrics → string * option Go.error;
  Marshal_pods : list PodMetrics → string * option Go.error
}.

(** [NewSystemPerfCollector]: [data] is an empty map. *)
Definition NewSystemPerfCollector : gmap string string := ∅.

Definition GetName : string := "systemperf".

(** [CheckSupported]. The format has no [%w] verb: the error is a plain
    message. *)
Definition CheckSupported (runtimeInfo : utils.RuntimeInfo) : option Go.error :=
  if utils.Contains (utils.CollectorList runtimeInfo) "connectedCluster" then
    Some (Go.errors_New
            ("Not included because 'connectedCluster' is in COLLECTOR_LIST variable. Included values: "
             +:+ strings.Join (utils.CollectorList runtimeInfo) " "))
  else None.

(** The loop over the node metrics: [inr r] when the loop body returns [r]
    from [Collect], [inl noderesult] when the loop ends. [err] is the
    variable of that name in [Collect]. *)
Fixpoint node_loop (items : list Usage) (noderesult : list NodeMetrics)
    (err : option Go.error) : list NodeMetrics + option Go.error :=
  match items with
  | [] => inl noderesult
  | nodeMetric :: rest =>
      let cpuQuantity := Cpu_MilliValue nodeMetric in
      let '(memQuantity, ok) := Memory_AsInt64 nodeMetric in
      if negb ok then inr err
      else
        let nm := {| NodeName := Name nodeMetric;
                     node_CPUUsage := cpuQuantity;
                     node_MemoryUsage := memQuantity |} in
        node_loop rest (noderesult ++ [nm]) err
  end.

(** The inner loop over the containers of one pod, and the loop over pods. *)
Fixpoint container_loop (podContainers : list Usage) (podresult : list PodMetrics)
    (err : option Go.error) : list PodMetrics + option Go.error :=
  match podContainers with
  | [] => inl podresult
  | container :: rest =>
      let cpuQuantity := Cpu_MilliValue container in
      let '(memQuantity, ok) := Memory_AsInt64 container in
      if negb ok then inr (Some (Go.Errorf "usage memory failure: " err))
      else
        let pm := {| ContainerName := Name container;
                     pod_CPUUsage := cpuQuantity;
                     pod_MemoryUsage := memQuantity |} in
        container_loop rest (podresult ++ [pm]) err
  end.

Fixpoint pod_loop (items : list (list Usage)) (podresult : list PodMetrics)
    (err : option Go.error) : list PodMetrics + option Go.error :=
  match items with
  | [] => inl podresult
  | podContainers :: rest =>
      match container_loop podContainers podresult err with
      | inr r => inr r
      | inl podresult => pod_loop rest podresult err
      end
  end.

Section Collect.
Context `{Json}.
Variable cluster : Cluster.

(** [Collect], on the collector's [data] map. *)
Definition Collect : Go.M (gmap string string) (option Go.error) :=
  λ data,
  let err := NewForConfig cluster in
  match err with
  | Some err => (Some (Go.Errorf_w "metrics for config error: " err), data)
  | None =>
  let '(nodeMetrics, err) := NodeMetricses_List cluster in
  match err with
  | Some err => (Some (Go.Errorf_w "node metrics error: " err), data)
  | None =>
  match node_loop nodeMetrics [] err with
  | inr r => (r, data)
  | inl noderesult =>
  let '(jsonNodeResult, err) := Marshal_nodes noderesult in
  match err with
  | Some err => (Some (Go.Errorf_w "marshall node metrics to json: " err), data)
  | None =>
  let data := <["nodes" := jsonNodeResult]> data in
  let '(podMetrics, err) := PodMetricses_List cluster in
  match err with
  | Some err => (Some (Go.Errorf_w "pod metrics failure: " err), data)
  | None =>
  match pod_loop podMetrics [] err with
  | inr r => (r, data)
  | inl podresult =>
  let '(jsonPodResult, err) := Marshal_pods podresult in
  match err with
  | Some err => (Some (Go.Errorf_w "marshall pod metrics to json: " err), data)
  | None =>
  let data := <["pods" := jsonPodResult]> data in
  (None, data)
  end end end end end end end.

End Collect.
End systemperf.

(** ** pkg/exporter: the Azure blob exporter *)

Module exporter.

(** The calls that reach the storage service. *)
Inductive NetCall : Type :=
| Container_Create (containerURL : string)
| UploadStreamToBlockBlob (containerURL blobName content : string).

(** The error of [containerURL.Create]: [ServiceCode] is present when the
    error is an [azblob.StorageError]. *)
Record CreateError : Type := {
  cause : Go.error;
  ServiceCode : option string
}.

(** The storage service and the libraries in front of it. *)
Record Azure : Type := {
  GetStorageEndpointSuffix : string;
  url_Parse : string → option Go.error;
  Create : string → option CreateError;
  Upload : string → string → string → option Go.error
}.

Record AzureBlobExporter : Type := {
  runtimeInfo : utils.RuntimeInfo;
  creationTime : string
}.

Definition storageKeyTypes : gmap string string := {[ "Container" := "Container" ]}.

Definition ServiceCodeContainerAlreadyExists : string := "ContainerAlreadyExists".

Section Exporter.
Variable az : Azure.

Definition net (c : NetCall) : Go.M (list NetCall) unit := λ log, (tt, log ++ [c]).

(** [createContainerURL]: the container URL and the error. *)
Definition createContainerURL (runtimeInfo : utils.RuntimeInfo)
    : Go.M (list NetCall) (string * option Go.error) :=
  if String.eqb (utils.StorageAccountName runtimeInfo) ""
     || String.eqb (utils.StorageSasKey runtimeInfo) ""
     || String.eqb (utils.StorageContainerName runtimeInfo) ""
  then Go.ret ("", Some (Go.errors_New "Storage not configured."))
  else
    let ses := GetStorageEndpointSuffix az in
    let url := "https://" +:+ utils.StorageAccountName runtimeInfo +:+ ".blob." +:+ ses
               +:+ "/" +:+ utils.StorageContainerName runtimeInfo
               +:+ utils.StorageSasKey runtimeInfo in
    match url_Parse az url with
    | Some err => Go.ret ("", Some (Go.Errorf_w "build blob container url: " err))
    | None =>
        let containerURL := url in
        match storageKeyTypes !! utils.StorageSasKeyType runtimeInfo with
        | Some _ => Go.ret (containerURL, None)
        | None =>
            (net (Container_Create containerURL) ;;;
             match Create az containerURL with
             | Some err =>
                 match ServiceCode err with
                 | Some code =>
                     if String.eqb code ServiceCodeContainerAlreadyExists
                     then Go.ret (containerURL, None)
                     else Go.ret ("", Some (Go.Errorf_w "create container with storage error: "
                                              (cause err)))
                 | None => Go.ret ("", Some (Go.Errorf_w "create container: " (cause err)))
                 end
             | None => Go.ret (containerURL, None)
             end)%go
        end
    end.

Definition blobName (exporter : AzureBlobExporter) (key : string) : string :=
  strings.ReplaceColons (creationTime exporter) +:+ "/"
    +:+ utils.HostNodeName (runtimeInfo exporter) +:+ "/" +:+ key.

(** the upload call [Export] makes for an item *)
Definition upload_call (exporter : AzureBlobExporter) (containerURL : string)
    (item : string * string) : NetCall :=
  UploadStreamToBlockBlob containerURL (blobName exporter item.1) item.2.

(** The loop of [Export] over the items of the producer, in the order in
    which [range] visits them; the result is the value [Export] returns. *)
Fixpoint upload_loop (exporter : AzureBlobExporter) (containerURL : string)
    (items : list (string * string)) : Go.M (list NetCall) (option Go.error) :=
  match items with
  | [] => Go.ret None
  | (key, data) :: rest =>
      (net (UploadStreamToBlockBlob containerURL (blobName exporter key) data) ;;;
       match Upload az containerURL (blobName exporter key) data with
       | Some err =>
           Go.ret (Some (Go.Errorf_w ("append file " +:+ key +:+ " to blob: ") err))
       | None => upload_loop exporter containerURL rest
       end)%go
  end.

(** [Export]; [items] is [producer.GetData()] in the order of the [range]. *)
Definition Export (exporter : AzureBlobExporter) (items : list (string * string))
    : Go.M (list NetCall) (option Go.error) :=
  (r <- createContainerURL (runtimeInfo exporter) ;;
   match r.2 with
   | Some err => Go.ret (Some err)
   | None => upload_loop exporter r.1 items
   end)%go.

(** [ExportReader]; [content] is what the reader yields. *)
Definition ExportReader (exporter : AzureBlobExporter) (name content : string)
    : Go.M (list NetCall) (option Go.error) :=
  (r <- createContainerURL (runtimeInfo exporter) ;;
   match r.2 with
   | Some err => Go.ret (Some err)
   | None =>
       net (UploadStreamToBlockBlob r.1 (blobName exporter name) content) ;;;
       Go.ret (Upload az r.1 (blobName exporter name) content)
   end)%go.

End Exporter.
End exporter.

(** ** Sample values *)

Module sample.

(** A clock that is read twice or more within one nanosecond, with the
    reading printed in decimal. *)
Definition frozen_clock : ext.Time :=
  {| ext.wall := λ _, 1700000000000000000;
     ext.RFC3339Nano := λ t, NilZero.string_of_int (Z.to_int t) |}.

(** A clock that advances by one nanosecond at each reading. *)
Definition ticking_clock : ext.Time :=
  {| ext.wall := λ i, 1700000000000000000 + Z.of_nat i;
     ext.RFC3339Nano := λ t, NilZero.string_of_int (Z.to_int t) |}.

Definition web : ext.Container :=
  {| ext.Namespace := "default"; ext.Podname := "web-0"; ext.Name := "app";
     ext.Pid := 4242; ext.HostNetwork := false |}.

(** the same container after a restart: a new process id *)
Definition web_restarted : ext.Container :=
  {| ext.Namespace := "default"; ext.Podname := "web-0"; ext.Name := "app";
     ext.Pid := 5151; ext.HostNetwork := false |}.

Definition db : ext.Container :=
  {| ext.Namespace := "default"; ext.Podname := "db-0"; ext.Name := "postgres";
     ext.Pid := 77; ext.HostNetwork := false |}.

(** An event text without escapes: the fields, separated. *)
Definition plain_codec : eventtypes.Codec :=
  {| eventtypes.EventString := λ e,
       "node=" +:+ eventtypes.Node e +:+ ";namespace=" +:+ eventtypes.Namespace e
       +:+ ";pod=" +:+ eventtypes.Pod e +:+ ";container=" +:+ eventtypes.Container e
       +:+ ";" +:+ eventtypes.payload e |}.

Definition node1 : utils.RuntimeInfo :=
  {| utils.OSIdentifier := "linux"; utils.HostNodeName := "aks-node-1";
     utils.CollectorList := []; utils.KubernetesObjects := [];
     utils.NodeLogs := []; utils.ContainerLogsNamespaces := [];
     utils.StorageAccountName := "periscope"; utils.StorageSasKey := "?sv=2020&sig=abc";
     utils.StorageContainerName := "logs"; utils.StorageSasKeyType := "" |}.

(** a raw event as a probe delivers it: no node, no container names *)
Definition raw_event : eventtypes.Event :=
  {| eventtypes.Node := ""; eventtypes.Namespace := ""; eventtypes.Pod := "";
     eventtypes.Container := ""; eventtypes.payload := "connect 10.0.0.4:443" |}.


(** A host on which only the standard TCP tracer can be built. *)
Definition host_without_core_tcp : ext.Host eventtypes.Event :=
  {| ext.RemoveMemlock := None; ext.Initialize := None;
     ext.dns_NewTracer := None; ext.ConnectToContainerCollection := None;
     ext.tcp_NewTracer := Some (Go.opaque "no BTF");
     ext.standard_NewTracer := None;
     ext.dns_window := [(web, raw_event)]; ext.tcp_window := [raw_event] |}.

(** A storage service that refuses the blob of one item. *)
Definition azure_refusing (name : string) : exporter.Azure :=
  {| exporter.GetStorageEndpointSuffix := "core.windows.net";
     exporter.url_Parse := λ _, None;
     exporter.Create := λ _, None;
     exporter.Upload := λ _ blob _,
       if String.eqb blob name then Some (Go.opaque "403 Forbidden") else None |}.

Definition run1 : exporter.AzureBlobExporter :=
  {| exporter.runtimeInfo := node1; exporter.creationTime := "2022-10-04T09:15:00Z" |}.

(** the runtime information of a node without a storage account name *)
Definition node_without_storage : utils.RuntimeInfo :=
  {| utils.OSIdentifier := "linux"; utils.HostNodeName := "aks-node-1";
     utils.CollectorList := ["connectedCluster"]; utils.KubernetesObjects := [];
     utils.NodeLogs := []; utils.ContainerLogsNamespaces := [];
     utils.StorageAccountName := ""; utils.StorageSasKey := "?sv=2020&sig=abc";
     utils.StorageContainerName := "logs"; utils.StorageSasKeyType := "" |}.

(** A cluster whose second node reports a memory usage that does not fit
    an integer. *)
Definition cluster_with_odd_node : systemperf.Cluster :=
  {| systemperf.NewForConfig := None;
     systemperf.NodeMetricses_List :=
       ([ {| systemperf.Name := "aks-node-0"; systemperf.Cpu_MilliValue := 250;
             systemperf.Memory_AsInt64 := (1073741824, true) |};
          {| systemperf.Name := "aks-node-1"; systemperf.Cpu_MilliValue := 100;
             systemperf.Memory_AsInt64 := (0, false) |} ], None);
     systemperf.PodMetricses_List := ([], None) |}.

(** a marshaller that never fails; the text is of no interest here *)
Definition count_json : systemperf.Json :=
  {| systemperf.Marshal_nodes := λ l, (NilZero.string_of_int (Z.to_int (Z.of_nat (length l))), None);
     systemperf.Marshal_pods := λ l, (NilZero.string_of_int (Z.to_int (Z.of_nat (length l))), None) |}.

End sample.

(** ** Error chains *)

Module errors.

(** The error at the bottom of a chain of [%w] wrappings, the one the
    chain was started from. *)
Fixpoint innermost (e : Go.error) : Go.error :=
  match e with
  | Go.Errorf_w _ cause => innermost cause
  | _ => e
  end.

End errors.

(** ** pkg/collector: what the trace collectors hand to the exporter *)

Module tracedata.

(** the bucket a collector holds for a trace, empty when it holds none *)
Definition bucket_of (traceName : string) (s : gadgets.State) : gadgets.Bucket :=
  default ∅ (gadgets.data s !! traceName).

Section GetData.
Context {DataValueMap : Type}.
(** [utils.ToDataValueMap], the conversion to the generic form. *)
Variable ToDataValueMap : gadgets.Bucket → DataValueMap.

(** [GetData] of a trace collector: the bucket of its name, converted; the
    panic of [GetTracerData] goes through. *)
Definition GetData (name : string) (s : gadgets.State) : Go.outcome DataValueMap :=
  match gadgets.GetTracerData name s with
  | Go.Returned events => Go.Returned (ToDataValueMap events)
  | Go.Panicked msg => Go.Panicked msg
  end.

Definition dns_GetData : gadgets.State → Go.outcome DataValueMap :=
  GetData collector.dns_GetName.

Definition tcp_GetData : gadgets.State → Go.outcome DataValueMap :=
  GetData collector.tcp_GetName.

End GetData.
End tracedata.

(** ** pkg/exporter: the text of the container URL *)

Module exporter_url.

(** The text [createContainerURL] hands to [url.Parse]. *)
Definition text (az : exporter.Azure) (runtimeInfo : utils.RuntimeInfo) : string :=
  "https://" +:+ utils.StorageAccountName runtimeInfo +:+ ".blob."
    +:+ exporter.GetStorageEndpointSuffix az +:+ "/"
    +:+ utils.StorageContainerName runtimeInfo +:+ utils.StorageSasKey runtimeInfo.

(** The storage settings are all given. *)
Definition configured (runtimeInfo : utils.RuntimeInfo) : Prop :=
  utils.StorageAccountName runtimeInfo ≠ ""
  ∧ utils.StorageSasKey runtimeInfo ≠ ""
  ∧ utils.StorageContainerName runtimeInfo ≠ "".

End exporter_url.

(** ** pkg/collector: the rows of the SystemPerf collector *)

Module systemperf_rows.

(** The row [Collect] appends for a node whose memory usage converts. *)
Definition node_row (nodeMetric : systemperf.Usage) : systemperf.NodeMetrics :=
  {| systemperf.NodeName := systemperf.Name nodeMetric;
     systemperf.node_CPUUsage := systemperf.Cpu_MilliValue nodeMetric;
     systemperf.node_MemoryUsage := (systemperf.Memory_AsInt64 nodeMetric).1 |}.

(** The row [Collect] appends for a container whose memory usage converts. *)
Definition container_row (container : systemperf.Usage) : systemperf.PodMetrics :=
  {| systemperf.ContainerName := systemperf.Name container;
     systemperf.pod_CPUUsage := systemperf.Cpu_MilliValue container;
     systemperf.pod_MemoryUsage := (systemperf.Memory_AsInt64 container).1 |}.

(** the memory usage converts to an integer *)
Definition converts (u : systemperf.Usage) : Prop :=
  (systemperf.Memory_AsInt64 u).2 = true.

End systemperf_rows.

(** ** pkg/utils: the runtime information *)

Module runtime_info.

(** [os.Getenv]: the value of the variable, empty when it is not set. *)
Definition Getenv (env : gmap string string) (key : string) : string :=
  default "" (env !! key).

Section GetRuntimeInfo.
(** [runtime.GOOS] and [strings.Fields]. *)
Variable GOOS : string.
Variable Fields : string → list string.

(** [GetRuntimeInfo], on the environment of the process: the runtime
    information, or the error. *)
Definition GetRuntimeInfo (env : gmap string string) : utils.RuntimeInfo + Go.error :=
  let osIdentifier := GOOS in
  let hostName := Getenv env "HOST_NODE_NAME" in
  if Nat.eqb (String.length hostName) 0 then
    inr (Go.errors_New "HOST_NODE_NAME value not set for container.")
  else
    let collectorList := Fields (Getenv env "COLLECTOR_LIST") in
    let kubernetesObjects := Fields (Getenv env "DIAGNOSTIC_KUBEOBJECTS_LIST") in
    let nodeLogs :=
      if String.eqb osIdentifier "linux"
      then Fields (Getenv env "DIAGNOSTIC_NODELOGS_LIST_LINUX")
      else Fields (Getenv env "DIAGNOSTIC_NODELOGS_LIST_WINDOWS") in
    let containerLogsNamespaces := Fields (Getenv env "DIAGNOSTIC_CONTAINERLOGS_LIST") in
    let storageAccountName := Getenv env "AZURE_BLOB_ACCOUNT_NAME" in
    let storageSasKey := Getenv env "AZURE_BLOB_SAS_KEY" in
    let storageContainerName := Getenv env "AZURE_BLOB_CONTAINER_NAME" in
    let storageSasKeyType := Getenv env "AZURE_STORAGE_SAS_KEY_TYPE" in
    inl {| utils.OSIdentifier := osIdentifier;
           utils.HostNodeName := hostName;
           utils.CollectorList := collectorList;
           utils.KubernetesObjects := kubernetesObjects;
           utils.NodeLogs := nodeLogs;
           utils.ContainerLogsNamespaces := containerLogsNamespaces;
           utils.StorageAccountName := storageAccountName;
           utils.StorageSasKey := storageSasKey;
           utils.StorageContainerName := storageContainerName;
           utils.StorageSasKeyType := storageSasKeyType |}.

End GetRuntimeInfo.
End runtime_info.

(** ** Strings, continued *)

Module strings_more.

(** [strings.HasPrefix]. *)
Fixpoint HasPrefix (s prefix : string) : bool :=
  match prefix, s with
  | EmptyString, _ => true
  | String c prefix', String d s' => Ascii.eqb c d && HasPrefix s' prefix'
  | String _ _, EmptyString => false
  end.

(** [strings.Contains]: [substr] starts at some position of [s]. *)
Fixpoint Contains (s substr : string) : bool :=
  HasPrefix s substr
  || match s with
     | EmptyString => false
     | String _ s' => Contains s' substr
     end.

End strings_more.

(** ** pkg/collector/inspektor-gadget: the remote trace collector *)

Module inspektor_gadget.

(** A pod of the [gadget] namespace: its name and the node it runs on. *)
Record Pod : Type := {
  Name : string;
  Spec_NodeName : string
}.

(** The calls made to the cluster. *)
Inductive KubeCall : Type :=
| Pods_List (namespace : string)
| GetCRDUnstructuredList.

(** What the cluster answers: the pods of the [gadget] namespace, and the
    names of the custom resource definitions, each with the error. *)
Record Kube : Type := {
  gadget_pods : list Pod * option Go.error;
  crd_names : list string * option Go.error
}.

(** The fields of the collector its checks read. *)
Record InspektorGadgetTraceCollector : Type := {
  osIdentifier : string;
  runtimeInfo : utils.RuntimeInfo
}.

Definition kube_call (c : KubeCall) : Go.M (list KubeCall) unit :=
  λ log, (tt, log ++ [c]).

(** The loop of [getGadgetPodName]: the name of the first pod on the node. *)
Fixpoint pod_on_node (items : list Pod) (hostNodeName : string) : option string :=
  match items with
  | [] => None
  | pod :: rest =>
      if String.eqb (Spec_NodeName pod) hostNodeName then Some (Name pod)
      else pod_on_node rest hostNodeName
  end.

(** The loop of [CheckSupported]: whether some definition carries the name
    of the trace resource. *)
Fixpoint has_trace_crd (items : list string) : bool :=
  match items with
  | [] => false
  | crd :: rest =>
      if strings_more.Contains crd "traces.gadget.kinvolk.io" then true
      else has_trace_crd rest
  end.

Section Collector.
(** [utils.Linux], and the quoting of the [%q] verb. *)
Variable Linux : string.
Variable Quote : string → string.
Variable kube : Kube.

(** [getGadgetPodName]. *)
Definition getGadgetPodName (collector : InspektorGadgetTraceCollector)
    : Go.M (list KubeCall) (string * option Go.error) :=
  (kube_call (Pods_List "gadget") ;;;
   match gadget_pods kube with
   | (_, Some err) => Go.ret ("", Some (Go.Errorf_w "could not list gadget pods: " err))
   | (items, None) =>
       match pod_on_node items (utils.HostNodeName (runtimeInfo collector)) with
       | Some name => Go.ret (name, None)
       | None =>
           Go.ret ("", Some (Go.errors_New
                               ("no gadget pod found on node "
                                +:+ Quote (utils.HostNodeName (runtimeInfo collector)))))
       end
   end)%go.

(** [getTraceName]. *)
Definition getTraceName (collector : InspektorGadgetTraceCollector)
    (gadgetName : string) : string :=
  gadgetName +:+ "-" +:+ utils.HostNodeName (runtimeInfo collector).

(** [CheckSupported]. The error of the listing is not wrapped. *)
Definition CheckSupported (collector : InspektorGadgetTraceCollector)
    : Go.M (list KubeCall) (option Go.error) :=
  if negb (String.eqb (osIdentifier collector) Linux) then
    Go.ret (Some (Go.errors_New ("unsupported OS: " +:+ osIdentifier collector)))
  else
    (kube_call GetCRDUnstructuredList ;;;
     match crd_names kube with
     | (_, Some err) => Go.ret (Some (Go.errors_New "error listing CRDs in cluster"))
     | (items, None) =>
         if has_trace_crd items then Go.ret None
         else Go.ret (Some (Go.errors_New "does not contain gadget crd"))
     end)%go.

End Collector.
End inspektor_gadget.

(** ** pkg/test: the fixture of the package tests *)

Module testfixture.

(** The calls the fixture makes to what is around it. *)
Inductive Call : Type :=
| m_Run
| PrintDiagnostics
| CheckDockerImages
| uninstallHelmReleases
| cleanTestNamespaces
| os_Remove (name : string)
| installMetricsServer
| installOsm
| deployOsmApplications
| log_Printf (msg : string).

(** The fields of [ClusterFixture] that [Cleanup] tests: whether the client
    set and the command runner are there, and the name of the kubeconfig
    file when there is one. *)
Record ClusterFixture : Type := {
  Clientset : bool;
  CommandRunner : bool;
  KubeConfigFile : option string
}.

(** What the calls answer: the exit code of the tests and the errors. *)
Record Outcomes : Type := {
  Run_code : Z;
  CheckDockerImages_err : option Go.error;
  uninstallHelmReleases_err : option Go.error;
  cleanTestNamespaces_err : option Go.error;
  Remove_err : string → option Go.error;
  installMetricsServer_err : option Go.error;
  installOsm_err : option Go.error;
  deployOsmApplications_err : option Go.error
}.

Definition call (c : Call) : Go.M (list Call) unit := λ log, (tt, log ++ [c]).

Section Fixture.
Variable o : Outcomes.

(** [cleanupResources]. *)
Definition cleanupResources : Go.M (list Call) (option Go.error) :=
  (call uninstallHelmReleases ;;;
   match uninstallHelmReleases_err o with
   | Some err => Go.ret (Some err)
   | None =>
       call cleanTestNamespaces ;;;
       match cleanTestNamespaces_err o with
       | Some err => Go.ret (Some err)
       | None => Go.ret None
       end
   end)%go.

(** [installResources]. *)
Definition installResources : Go.M (list Call) (option Go.error) :=
  (call installMetricsServer ;;;
   match installMetricsServer_err o with
   | Some err => Go.ret (Some (Go.Errorf_w "error installing metrics server: " err))
   | None =>
       call installOsm ;;;
       match installOsm_err o with
       | Some err => Go.ret (Some (Go.Errorf_w "error installing OSM: " err))
       | None =>
           call deployOsmApplications ;;;
           match deployOsmApplications_err o with
           | Some err =>
               Go.ret (Some (Go.Errorf_w "error deploying OSM applications: " err))
           | None => Go.ret None
           end
       end
   end)%go.

(** [Cleanup]. *)
Definition Cleanup (fixture : ClusterFixture) : Go.M (list Call) unit :=
  ((if Clientset fixture && CommandRunner fixture
       && bool_decide (is_Some (KubeConfigFile fixture))
    then
      err <- cleanupResources ;;
      match err with
      | Some err => call (log_Printf ("Error cleaning up resources: " +:+ Go.Error err))
      | None => Go.ret tt
      end
    else Go.ret tt) ;;;
   match KubeConfigFile fixture with
   | Some kubeConfigFileName =>
       call (os_Remove kubeConfigFileName) ;;;
       match Remove_err o kubeConfigFileName with
       | Some err =>
           call (log_Printf ("Error deleting kubeconfig file " +:+ kubeConfigFileName
                             +:+ ": " +:+ Go.Error err))
       | None => Go.ret tt
       end
   | None => Go.ret tt
   end)%go.

(** [runTests]: the exit code. *)
Definition runTests (fixture : ClusterFixture) : Go.M (list Call) Z :=
  Go.func
    (Go.defer (Cleanup fixture) ;;;
     Go.lift (call m_Run) ;;;
     let code := Run_code o in
     (if bool_decide (code ≠ 0) then Go.lift (call PrintDiagnostics) else Go.fret tt) ;;;
     Go.lift (call CheckDockerImages) ;;;
     match CheckDockerImages_err o with
     | Some err =>
         Go.lift (call (log_Printf
                          ("Failing due to unexpected Docker image usage (see test.dockerImageManager): "
                           +:+ Go.Error err))) ;;;
         Go.Return 1
     | None => Go.Return code
     end)%fn.

End Fixture.

End testfixture.

(** ** More sample values *)

Module sample_more.

(** A host on which every step succeeds and no event is delivered. *)
Definition quiet_host : ext.Host eventtypes.Event :=
  {| ext.RemoveMemlock := None; ext.Initialize := None;
     ext.dns_NewTracer := None; ext.ConnectToContainerCollection := None;
     ext.tcp_NewTracer := None; ext.standard_NewTracer := None;
     ext.dns_window := []; ext.tcp_window := [] |}.


(** A host on which the DNS tracer cannot be connected. *)
Definition host_without_dns : ext.Host eventtypes.Event :=
  {| ext.RemoveMemlock := None; ext.Initialize := None;
     ext.dns_NewTracer := None;
     ext.ConnectToContainerCollection := Some (Go.opaque "attach: permission denied");
     ext.tcp_NewTracer := None; ext.standard_NewTracer := None;
     ext.dns_window := [(sample.web, sample.raw_event)];
     ext.tcp_window := [sample.raw_event] |}.

(** the runtime information of a node with a container-scoped SAS key *)
Definition node_container_key : utils.RuntimeInfo :=
  {| utils.OSIdentifier := "linux"; utils.HostNodeName := "aks-node-1";
     utils.CollectorList := []; utils.KubernetesObjects := [];
     utils.NodeLogs := []; utils.ContainerLogsNamespaces := [];
     utils.StorageAccountName := "periscope"; utils.StorageSasKey := "?sv=2020&sig=abc";
     utils.StorageContainerName := "logs"; utils.StorageSasKeyType := "Container" |}.

(** A storage service on which the container exists already, or, with
    another code, refuses to create it. *)
Definition azure_answering (code : string) : exporter.Azure :=
  {| exporter.GetStorageEndpointSuffix := "core.windows.net";
     exporter.url_Parse := λ _, None;
     exporter.Create := λ _,
       Some {| exporter.cause := Go.opaque code; exporter.ServiceCode := Some code |};
     exporter.Upload := λ _ _ _, None |}.

(** A cluster with one node and one pod of two containers, the second of
    which reports a memory usage that does not fit an integer. *)
Definition cluster_with_odd_container : systemperf.Cluster :=
  {| systemperf.NewForConfig := None;
     systemperf.NodeMetricses_List :=
       ([ {| systemperf.Name := "aks-node-0"; systemperf.Cpu_MilliValue := 250;
             systemperf.Memory_AsInt64 := (1073741824, true) |} ], None);
     systemperf.PodMetricses_List :=
       ([ [ {| systemperf.Name := "app"; systemperf.Cpu_MilliValue := 12;
               systemperf.Memory_AsInt64 := (52428800, true) |};
            {| systemperf.Name := "sidecar"; systemperf.Cpu_MilliValue := 3;
               systemperf.Memory_AsInt64 := (0, false) |} ] ], None) |}.

(** The same cluster with every usage in range. *)
Definition cluster_in_range : systemperf.Cluster :=
  {| systemperf.NewForConfig := None;
     systemperf.NodeMetricses_List :=
       ([ {| systemperf.Name := "aks-node-0"; systemperf.Cpu_MilliValue := 250;
             systemperf.Memory_AsInt64 := (1073741824, true) |} ], None);
     systemperf.PodMetricses_List :=
       ([ [ {| systemperf.Name := "app"; systemperf.Cpu_MilliValue := 12;
               systemperf.Memory_AsInt64 := (52428800, true) |};
            {| systemperf.Name := "sidecar"; systemperf.Cpu_MilliValue := 3;
               systemperf.Memory_AsInt64 := (4194304, true) |} ] ], None) |}.

(** the environment of a pod that is given its node and nothing else *)
Definition bare_env : gmap string string :=
  {[ "HOST_NODE_NAME" := "aks-node-1" ]}.

(** a cluster with a gadget pod on each of two nodes, and the trace
    resource among its definitions *)
Definition gadget_cluster : inspektor_gadget.Kube :=
  {| inspektor_gadget.gadget_pods :=
       ([ {| inspektor_gadget.Name := "gadget-x7k2p";
             inspektor_gadget.Spec_NodeName := "aks-node-0" |};
          {| inspektor_gadget.Name := "gadget-m4q9d";
             inspektor_gadget.Spec_NodeName := "aks-node-1" |} ], None);
     inspektor_gadget.crd_names :=
       (["certificates.cert-manager.io"; "traces.gadget.kinvolk.io"], None) |}.

Definition gadget_collector : inspektor_gadget.InspektorGadgetTraceCollector :=
  {| inspektor_gadget.osIdentifier := "linux";
     inspektor_gadget.runtimeInfo := sample.node1 |}.

End sample_more.

(** * Properties *)

(** ** The state-passing operations *)

Section go_facts.
Context {S : Type}.

Lemma exec_bind {A B} (m : Go.M S A) (k : A → Go.M S B) (s : S) :
  Go.exec (Go.bind m k) s = Go.exec (k (Go.eval m s)) (Go.exec m s).
Proof. unfold Go.exec, Go.eval, Go.bind. by destruct (m s). Qed.

Lemma then_Returned (m : Go.M S unit) (s : S) :
  Go.bind m (λ _, Go.ret (Go.Returned tt)) s = (Go.Returned tt, Go.exec m s).
Proof. unfold Go.bind, Go.ret, Go.exec. by destruct (m s) as [[] ?]. Qed.

Lemma run_pair {A} (m : Go.M S A) (s : S) : m s = (Go.eval m s, Go.exec m s).
Proof. unfold Go.eval, Go.exec. by destruct (m s). Qed.

End go_facts.

(** ** The event trace collector *)

Section sink_facts.
Context `{ext.Time}.
Import gadgets.

(** [PublishEvent] files the content under the derived key, in a new bucket
    or in the existing one, and touches no other bucket. *)
Lemma PublishEvent_data traceName container eventDetails (s : State) :
  data (Go.exec (PublishEvent traceName container eventDetails) s)
  = <[traceName := <[derived_key traceName container s := eventDetails]>
                     (default ∅ (data s !! traceName))]> (data s).
Proof.
  unfold Go.exec, PublishEvent, Go.bind, info, time_Now, LoadOrStore, Store,
    Go.ret, derived_key. simpl.
  destruct (data s !! traceName) as [b|] eqn:Hb; simpl; [done|].
  by rewrite insert_empty.
Qed.

Lemma PublishEvent_bucket traceName container eventDetails (s : State) :
  data (Go.exec (PublishEvent traceName container eventDetails) s) !! traceName
  = Some (<[derived_key traceName container s := eventDetails]>
            (default ∅ (data s !! traceName))).
Proof. by rewrite PublishEvent_data, lookup_insert_eq. Qed.

Lemma PublishEvent_other traceName container eventDetails (s : State) other :
  other ≠ traceName →
  data (Go.exec (PublishEvent traceName container eventDetails) s) !! other
  = data s !! other.
Proof. intros Hne. by rewrite PublishEvent_data, lookup_insert_ne. Qed.

(** C1. For every trace name and container, two events published one after
    the other for that trace and container whose derived keys are identical
    (both within one timestamp-resolution window) leave exactly one entry
    under that key in the bucket, and its content is the later one: the
    bucket is the earlier bucket with the later content under the key. *)
Theorem PublishEvent_same_key_later_write_wins
    (traceName : string) (container : option ext.Container)
    (first later : string) (s : State) :
  let s1 := Go.exec (PublishEvent traceName container first) s in
  let s2 := Go.exec (PublishEvent traceName container later) s1 in
  let key := derived_key traceName container s in
  let before := default ∅ (data s !! traceName) in
  derived_key traceName container s1 = key →
  ∃ bucket : Bucket,
    data s2 !! traceName = Some bucket
    ∧ bucket = <[key := later]> before
    ∧ bucket !! key = Some later
    ∧ size bucket = Datatypes.S (size (delete key before)).
Proof.
  intros s1 s2 key before Hkey.
  exists (<[key := later]> before).
  assert (Hb : data s2 !! traceName = Some (<[key := later]> before)).
  { subst s2. rewrite PublishEvent_bucket, Hkey.
    subst s1. rewrite PublishEvent_bucket. simpl.
    by rewrite insert_insert_eq. }
  split_and!; [done|done|apply lookup_insert_eq|].
  rewrite <- insert_delete_eq.
  apply map_size_insert_None, lookup_delete_eq.
Qed.

(** *** Keys of distinct containers *)

Lemma has_char_head c c' s : strings.has_char c (String c' s) = false →
  c ≠ c' ∧ strings.has_char c s = false.
Proof.
  simpl. intros [Hc Hs]%orb_false_iff. split; [|done].
  by apply Ascii.eqb_neq.
Qed.

(** A string that lacks a character ends at the first occurrence of it. *)
Lemma split_at_char c s1 s2 r1 r2 :
  strings.has_char c s1 = false → strings.has_char c s2 = false →
  s1 +:+ String c r1 = s2 +:+ String c r2 → s1 = s2 ∧ r1 = r2.
Proof.
  revert s2. induction s1 as [|a s1 IH]; intros [|b s2] H1 H2 Heq; simpl in Heq.
  - by injection Heq.
  - apply has_char_head in H2 as [Hne _]. injection Heq as Hc _. congruence.
  - apply has_char_head in H1 as [Hne _]. injection Heq as Hc _. congruence.
  - apply has_char_head in H1 as [_ H1]. apply has_char_head in H2 as [_ H2].
    injection Heq as -> Heq. destruct (IH s2 H1 H2 Heq) as [-> ->]. done.
Qed.

Lemma plain_name_chars s : strings.plain_name s = true →
  strings.has_char " "%char s = false ∧ strings.has_char "/"%char s = false.
Proof.
  unfold strings.plain_name. intros [H1 H2]%andb_true_iff.
  by apply negb_true_iff in H1, H2.
Qed.

(** The text of [info] determines namespace, pod and container names when
    these are plain. *)
Lemma info_text_inj (c1 c2 : ext.Container) (t1 t2 : string) :
  strings.plain_name (ext.Namespace c1) = true →
  strings.plain_name (ext.Podname c1) = true →
  strings.plain_name (ext.Name c1) = true →
  strings.plain_name (ext.Namespace c2) = true →
  strings.plain_name (ext.Podname c2) = true →
  strings.plain_name (ext.Name c2) = true →
  info_text (Some c1) t1 = info_text (Some c2) t2 →
  ext.Namespace c1 = ext.Namespace c2 ∧ ext.Podname c1 = ext.Podname c2
  ∧ ext.Name c1 = ext.Name c2.
Proof.
  intros [Hn1 _]%plain_name_chars [_ Hp1]%plain_name_chars [_ Hc1]%plain_name_chars
         [Hn2 _]%plain_name_chars [_ Hp2]%plain_name_chars [_ Hc2]%plain_name_chars.
  unfold info_text. simpl. intros Heq.
  apply split_at_char in Heq as [Hns Heq]; [|done..].
  injection Heq as Heq.
  apply split_at_char in Heq as [Hpod Heq]; [|done..].
  injection Heq as Heq.
  apply split_at_char in Heq as [Hname _]; [|done..].
  done.
Qed.

(** C2, as the code has it. For every trace name, two events published one
    after the other for that trace with two containers that differ in
    namespace, pod name or container name, these names being free of spaces
    and slashes, are kept as two distinct entries of the bucket, whatever
    the two timestamps are, the same nanosecond included. The process id
    takes no part in the key. *)
Theorem PublishEvent_distinct_containers_distinct_entries
    (traceName : string) (c1 c2 : ext.Container) (d1 d2 : string) (s : State) :
  strings.plain_name (ext.Namespace c1) = true →
  strings.plain_name (ext.Podname c1) = true →
  strings.plain_name (ext.Name c1) = true →
  strings.plain_name (ext.Namespace c2) = true →
  strings.plain_name (ext.Podname c2) = true →
  strings.plain_name (ext.Name c2) = true →
  (ext.Namespace c1, ext.Podname c1, ext.Name c1)
    ≠ (ext.Namespace c2, ext.Podname c2, ext.Name c2) →
  let s1 := Go.exec (PublishEvent traceName (Some c1) d1) s in
  let s2 := Go.exec (PublishEvent traceName (Some c2) d2) s1 in
  ∃ (bucket : Bucket) (k1 k2 : string),
    data s2 !! traceName = Some bucket
    ∧ k1 ≠ k2 ∧ bucket !! k1 = Some d1 ∧ bucket !! k2 = Some d2.
Proof.
  intros P1 P2 P3 P4 P5 P6 Hne s1 s2.
  set (k1 := derived_key traceName (Some c1) s).
  set (k2 := derived_key traceName (Some c2) s1).
  assert (Hk : k1 ≠ k2).
  { intros Heq. apply Hne. unfold k1, k2, derived_key in Heq.
    apply info_text_inj in Heq as (-> & -> & ->); done. }
  exists (<[k2 := d2]> (<[k1 := d1]> (default ∅ (data s !! traceName)))), k1, k2.
  split_and!; [|done| |].
  - subst s2. rewrite PublishEvent_bucket. fold k2.
    subst s1. by rewrite PublishEvent_bucket.
  - rewrite lookup_insert_ne by done. apply lookup_insert_eq.
  - apply lookup_insert_eq.
Qed.

End sink_facts.

Lemma PublishEvent_same_key_later_write_wins_witness :
  let s0 := gadgets.NewIGTraceContainerCollector in
  let s1 := Go.exec (gadgets.PublishEvent (H := sample.frozen_clock) "ig-dnstrace"
                       (Some sample.web) "first") s0 in
  let s2 := Go.exec (gadgets.PublishEvent (H := sample.frozen_clock) "ig-dnstrace"
                       (Some sample.web) "later") s1 in
  let key := "default /namespaces/web-0/pods/app/containers/1700000000000000000 " in
  gadgets.derived_key (H := sample.frozen_clock) "ig-dnstrace" (Some sample.web) s1 = key
  ∧ ∃ bucket : gadgets.Bucket,
      gadgets.data s2 !! "ig-dnstrace" = Some bucket
      ∧ bucket = <[key := "later"]> ∅
      ∧ bucket !! key = Some "later"
      ∧ size bucket = Datatypes.S (size (delete key (∅ : gadgets.Bucket))).
Proof.
  split; [by vm_compute|].
  apply (@PublishEvent_same_key_later_write_wins sample.frozen_clock
           "ig-dnstrace" (Some sample.web) "first" "later"
           gadgets.NewIGTraceContainerCollector).
  by vm_compute.
Defined.

Lemma PublishEvent_distinct_containers_distinct_entries_witness :
  let s1 := Go.exec (gadgets.PublishEvent (H := sample.frozen_clock) "ig-dnstrace"
                       (Some sample.web) "query a") gadgets.NewIGTraceContainerCollector in
  let s2 := Go.exec (gadgets.PublishEvent (H := sample.frozen_clock) "ig-dnstrace"
                       (Some sample.db) "query b") s1 in
  ∃ (bucket : gadgets.Bucket) (k1 k2 : string),
    gadgets.data s2 !! "ig-dnstrace" = Some bucket
    ∧ k1 ≠ k2 ∧ bucket !! k1 = Some "query a" ∧ bucket !! k2 = Some "query b".
Proof.
  apply (@PublishEvent_distinct_containers_distinct_entries sample.frozen_clock
           "ig-dnstrace" sample.web sample.db "query a" "query b"
           gadgets.NewIGTraceContainerCollector); by vm_compute.
Defined.

(** C2, as stated, fails: a container and the same container after a
    restart differ (in process id), and two events published for them
    within one nanosecond are kept as a single entry, the later one. *)
Lemma PublishEvent_process_id_not_in_key :
  let s1 := Go.exec (gadgets.PublishEvent (H := sample.frozen_clock) "ig-dnstrace"
                       (Some sample.web) "query a")
              gadgets.NewIGTraceContainerCollector in
  let s2 := Go.exec (gadgets.PublishEvent (H := sample.frozen_clock) "ig-dnstrace"
                       (Some sample.web_restarted) "query b") s1 in
  sample.web ≠ sample.web_restarted
  ∧ gadgets.data s2 !! "ig-dnstrace"
    = Some {[ "default /namespaces/web-0/pods/app/containers/1700000000000000000 "
              := "query b" ]}
  ∧ ¬ ∃ (bucket : gadgets.Bucket) (k1 k2 : string),
        gadgets.data s2 !! "ig-dnstrace" = Some bucket
        ∧ k1 ≠ k2 ∧ bucket !! k1 = Some "query a" ∧ bucket !! k2 = Some "query b".
Proof.
  intros s1 s2.
  assert (Hb : gadgets.data s2 !! "ig-dnstrace"
    = Some {[ "default /namespaces/web-0/pods/app/containers/1700000000000000000 "
              := "query b" ]}).
  { subst s2 s1. rewrite !PublishEvent_bucket. simpl.
    rewrite lookup_empty. simpl. by rewrite insert_insert_eq, insert_empty. }
  split_and!; [discriminate|done|].
  intros (bucket & k1 & k2 & Hbucket & _ & Hfirst & _).
  rewrite Hb in Hbucket. injection Hbucket as <-.
  apply lookup_singleton_Some in Hfirst as [_ Hfirst]. discriminate.
Qed.

(** *** Reading a bucket *)

Section sink_history.
Context `{ext.Time}.
Import gadgets.

Lemma publish_all_cons e events (s : State) :
  Go.exec (publish_all (e :: events)) s
  = Go.exec (publish_all events) (Go.exec (PublishEvent e.1.1 e.1.2 e.2) s).
Proof. unfold publish_all. simpl. by rewrite exec_bind. Qed.

(** No bucket appears for a trace name that no event carries. *)
Lemma publish_all_absent events tracerName (s : State) :
  data s !! tracerName = None → tracerName ∉ events.*1.*1 →
  data (Go.exec (publish_all events) s) !! tracerName = None.
Proof.
  revert s. induction events as [|e events IH]; intros s Hs Hnot; [done|].
  rewrite publish_all_cons. rewrite !fmap_cons in Hnot.
  apply not_elem_of_cons in Hnot as [Hne Hnot].
  apply IH; [|done]. by rewrite PublishEvent_other.
Qed.

(** A bucket that holds an entry is never emptied or dropped, and an event
    creates or extends the bucket of its trace. *)
Lemma publish_all_present events tracerName (s : State) :
  tracerName ∈ events.*1.*1 ∨ (∃ b, data s !! tracerName = Some b ∧ b ≠ ∅) →
  ∃ b, data (Go.exec (publish_all events) s) !! tracerName = Some b ∧ b ≠ ∅.
Proof.
  revert s. induction events as [|e events IH]; intros s Hs.
  - destruct Hs as [Hin|Hb]; [|done]. by apply elem_of_nil in Hin.
  - rewrite publish_all_cons. apply IH.
    destruct (decide (tracerName = e.1.1)) as [->|Hne].
    + right. eexists. split; [apply PublishEvent_bucket|].
      apply insert_non_empty.
    + destruct Hs as [Hin|Hb].
      * left. rewrite !fmap_cons in Hin. by apply elem_of_cons in Hin as [?|?].
      * right. by rewrite PublishEvent_other.
Qed.

(** Every content found in a bucket was there before or was published for
    that trace. *)
Lemma publish_all_contents events tracerName (s : State) (b : Bucket) k v :
  data (Go.exec (publish_all events) s) !! tracerName = Some b →
  b !! k = Some v →
  (∃ b0, data s !! tracerName = Some b0 ∧ b0 !! k = Some v)
  ∨ ∃ c, (tracerName, c, v) ∈ events.
Proof.
  revert s. induction events as [|[[n c] d] events IH]; intros s Hb Hk.
  - left. by exists b.
  - rewrite publish_all_cons in Hb. simpl in Hb.
    destruct (IH _ Hb Hk) as [(b0 & Hb0 & Hk0)|(c' & Hin)].
    + destruct (decide (tracerName = n)) as [->|Hne].
      * rewrite PublishEvent_bucket in Hb0. injection Hb0 as <-.
        apply lookup_insert_Some in Hk0 as [[_ <-]|[_ Hk0]].
        -- right. exists c. apply elem_of_cons. by left.
        -- destruct (data s !! n) as [b1|] eqn:Hb1; simpl in Hk0.
           ++ left. by exists b1.
           ++ by rewrite lookup_empty in Hk0.
      * rewrite PublishEvent_other in Hb0 by done. left. by exists b0.
    + right. exists c'. apply elem_of_cons. by right.
Qed.

(** C3. On a collector to which the listed events were published: for a
    trace name that none of the events carries, [GetTracerData] panics, it
    does not return an empty mapping; for a trace name that some event
    carries, it returns the bucket held for that name, which is not empty
    and whose contents were all published for that name. *)
Theorem GetTracerData_fails_fast_or_returns_bucket
    (events : list (string * option ext.Container * string)) (tracerName : string) :
  let s := Go.exec (publish_all events) NewIGTraceContainerCollector in
  (tracerName ∉ events.*1.*1 →
     ∃ msg, GetTracerData tracerName s = Go.Panicked msg)
  ∧ (tracerName ∈ events.*1.*1 →
     ∃ bucket : Bucket,
       GetTracerData tracerName s = Go.Returned bucket
       ∧ data s !! tracerName = Some bucket
       ∧ bucket ≠ ∅
       ∧ ∀ k v, bucket !! k = Some v → ∃ c, (tracerName, c, v) ∈ events).
Proof.
  intros s. subst s. split.
  - intros Hnot. unfold GetTracerData.
    rewrite (publish_all_absent events tracerName); [by eexists|done|done].
  - intros Hin.
    destruct (publish_all_present events tracerName NewIGTraceContainerCollector)
      as (b & Hb & Hne); [by left|].
    exists b. unfold GetTracerData. rewrite Hb.
    split_and!; [done..|].
    intros k v Hk.
    destruct (publish_all_contents events tracerName _ b k v Hb Hk)
      as [(b0 & Hb0 & _)|Hc]; [|done].
    unfold NewIGTraceContainerCollector in Hb0. simpl in Hb0.
    by rewrite lookup_empty in Hb0.
Qed.

End sink_history.

Lemma GetTracerData_fails_fast_or_returns_bucket_witness :
  let events := [("ig-dnstrace", Some sample.web, "query a")] in
  let s := Go.exec (gadgets.publish_all (H := sample.ticking_clock) events)
             gadgets.NewIGTraceContainerCollector in
  (∃ msg, gadgets.GetTracerData "ig-tcptrace" s = Go.Panicked msg)
  ∧ ∃ bucket : gadgets.Bucket,
      gadgets.GetTracerData "ig-dnstrace" s = Go.Returned bucket
      ∧ gadgets.data s !! "ig-dnstrace" = Some bucket
      ∧ bucket ≠ ∅
      ∧ ∀ k v, bucket !! k = Some v → ∃ c, ("ig-dnstrace", c, v) ∈ events.
Proof.
  intros events s. split.
  - apply (proj1 (@GetTracerData_fails_fast_or_returns_bucket sample.ticking_clock
                    events "ig-tcptrace")).
    vm_compute. by intros ?%list_elem_of_singleton.
  - apply (proj2 (@GetTracerData_fails_fast_or_returns_bucket sample.ticking_clock
                    events "ig-dnstrace")).
    vm_compute. apply list_elem_of_singleton. reflexivity.
Defined.

(** ** The trace collectors *)

Section callback_facts.
Context `{ext.Time} `{eventtypes.Codec}.
Import collector.

(** C4, as the code has it. The DNS callback sets the node of the event to
    the host node name and, when the container is not host-network, the
    namespace, pod and container of the event to the names of the
    container (it leaves them as they are otherwise); the text of that
    event is what it publishes, with the container, under [ig-dnstrace].
    The TCP callback publishes the text of the event as delivered, with no
    container, under [ig-tcptrace]. *)
Theorem trace_callbacks_forward
    (runtimeInfo : utils.RuntimeInfo) (container : ext.Container)
    (event : eventtypes.Event) (s : gadgets.State) :
  (∃ enriched : eventtypes.Event,
     dnsEventCallback runtimeInfo (Some container) event s
     = (Go.Returned tt,
        Go.exec (gadgets.PublishEvent "ig-dnstrace" (Some container)
                   (eventtypes.EventString enriched)) s)
     ∧ eventtypes.Node enriched = utils.HostNodeName runtimeInfo
     ∧ eventtypes.payload enriched = eventtypes.payload event
     ∧ (eventtypes.Namespace enriched, eventtypes.Pod enriched,
        eventtypes.Container enriched)
       = if ext.HostNetwork container
         then (eventtypes.Namespace event, eventtypes.Pod event,
               eventtypes.Container event)
         else (ext.Namespace container, ext.Podname container, ext.Name container))
  ∧ tcpEventCallback event s
    = gadgets.PublishEvent "ig-tcptrace" None (eventtypes.EventString event) s.
Proof.
  split; [|done].
  unfold dnsEventCallback, dns_GetName.
  destruct (ext.HostNetwork container); simpl;
    (eexists; split; [apply then_Returned|done]).
Qed.

End callback_facts.

(** C4, as stated, fails for the TCP collector: the text its callback
    publishes is that of the event as delivered, whose node is not the host
    node. *)
Lemma tcpEventCallback_does_not_enrich :
  let s := Go.exec (collector.tcpEventCallback (H := sample.frozen_clock)
                      (H0 := sample.plain_codec) sample.raw_event)
             gadgets.NewIGTraceContainerCollector in
  gadgets.data s !! "ig-tcptrace"
  = Some {[ "1700000000000000000"
            := "node=;namespace=;pod=;container=;connect 10.0.0.4:443" ]}
  ∧ ¬ ∃ (enriched : eventtypes.Event) (bucket : gadgets.Bucket) (key : string),
        eventtypes.Node enriched = utils.HostNodeName sample.node1
        ∧ gadgets.data s !! "ig-tcptrace" = Some bucket
        ∧ bucket !! key
          = Some (eventtypes.EventString (Codec := sample.plain_codec) enriched).
Proof.
  intros s.
  assert (Hb : gadgets.data s !! "ig-tcptrace"
    = Some {[ "1700000000000000000"
              := "node=;namespace=;pod=;container=;connect 10.0.0.4:443" ]}).
  { subst s. unfold collector.tcpEventCallback, collector.tcp_GetName.
    rewrite PublishEvent_bucket. simpl. rewrite lookup_empty. simpl.
    by rewrite insert_empty. }
  split; [done|].
  intros (enriched & bucket & key & Hnode & Hbucket & Hkey).
  rewrite Hb in Hbucket. injection Hbucket as <-.
  apply lookup_singleton_Some in Hkey as [_ Hkey].
  simpl in Hkey. rewrite Hnode in Hkey. discriminate.
Qed.

Section collect_facts.
Context `{ext.Time} `{eventtypes.Codec}.
Import collector.

Lemma PublishEvent_calls traceName container eventDetails (s : gadgets.State) :
  gadgets.calls (Go.exec (gadgets.PublishEvent traceName container eventDetails) s)
  = gadgets.calls s.
Proof.
  unfold Go.exec, gadgets.PublishEvent, Go.bind, gadgets.info, gadgets.time_Now,
    gadgets.LoadOrStore, gadgets.Store, Go.ret.
  simpl. by destruct (gadgets.data s !! traceName).
Qed.

(** A loop whose body makes no external call makes none. *)
Lemma for_range_calls {A} (l : list A) (body : A → Go.M gadgets.State unit)
    (s : gadgets.State) :
  (∀ a s, gadgets.calls (Go.exec (body a) s) = gadgets.calls s) →
  gadgets.calls (Go.exec (Go.for_range l body) s) = gadgets.calls s.
Proof.
  intros Hbody. revert s. induction l as [|a l IH]; intros s; [done|].
  simpl. rewrite exec_bind, IH. apply Hbody.
Qed.

Lemma dnsEventCallback_calls runtimeInfo container event (s : gadgets.State) :
  gadgets.calls (Go.exec (dnsEventCallback runtimeInfo container event) s)
  = gadgets.calls s.
Proof.
  unfold dnsEventCallback. destruct container as [c|]; [|done].
  rewrite exec_bind. apply PublishEvent_calls.
Qed.

Lemma dns_wait_calls runtimeInfo h (s : gadgets.State) :
  gadgets.calls (Go.exec (dns_wait runtimeInfo h) s)
  = gadgets.calls s ++ [(ext.waiter, None)].
Proof.
  unfold dns_wait. rewrite exec_bind, for_range_calls; [done|].
  intros [c e] s'. rewrite exec_bind. apply dnsEventCallback_calls.
Qed.

Lemma tcp_wait_calls h (s : gadgets.State) :
  gadgets.calls (Go.exec (tcp_wait h) s) = gadgets.calls s ++ [(ext.waiter, None)].
Proof.
  unfold tcp_wait. rewrite exec_bind, for_range_calls; [done|].
  intros e s'. apply PublishEvent_calls.
Qed.

(** Unfolds a [Collect] down to the calls it makes. *)
Ltac run_collect :=
  unfold Go.exec, Go.eval, dns_Collect, tcp_Collect, Go.func, Go.fbind, Go.lift,
    Go.defer, Go.Return, Go.fret, gadgets.InitContainerCollection, gadgets.call,
    closing, Go.bind, Go.ret; simpl.

(** Splits a log of calls after its first [n] new calls. *)
Ltac split_log n :=
  rewrite <- ?app_assoc; simpl;
  lazymatch goal with
  | |- ext.torn_down_in_reverse _ ?before (?before ++ ?l) =>
      exists (take n l), (drop n l); simpl;
      split_and!; [done|done|by eexists|done|done]
  end.

(** C6. Whatever the host answers, the calls a trace collector's [Collect]
    makes end with the release of every resource it acquired, in reverse
    order of acquisition, and nothing is released before: for the DNS
    collector the connection of the probe, then the probe, then the
    Registry Adapter, as far as they were acquired; for the TCP collector
    the probe, then the Registry Adapter. *)
Theorem Collect_tears_down_in_reverse
    (runtimeInfo : utils.RuntimeInfo) (h : ext.Host eventtypes.Event)
    (s : gadgets.State) :
  ext.torn_down_in_reverse [ext.registry_adapter; ext.probe; ext.probe_connection]
    (gadgets.calls s) (gadgets.calls (Go.exec (dns_Collect runtimeInfo h) s))
  ∧ ext.torn_down_in_reverse [ext.registry_adapter; ext.probe]
      (gadgets.calls s) (gadgets.calls (Go.exec (tcp_Collect h) s)).
Proof.
  split.
  - run_collect.
    destruct (ext.RemoveMemlock h); simpl; [split_log 1%nat|].
    destruct (ext.Initialize h); simpl; [split_log 2%nat|].
    destruct (ext.dns_NewTracer h); simpl; [split_log 3%nat|].
    destruct (ext.ConnectToContainerCollection h); simpl; [split_log 4%nat|].
    rewrite (run_pair (dns_wait runtimeInfo h)). simpl.
    rewrite dns_wait_calls. simpl. split_log 5%nat.
  - run_collect.
    destruct (ext.RemoveMemlock h); simpl; [split_log 1%nat|].
    destruct (ext.Initialize h); simpl; [split_log 2%nat|].
    destruct (ext.tcp_NewTracer h); simpl.
    + destruct (ext.standard_NewTracer h); simpl; [split_log 5%nat|].
      rewrite (run_pair (tcp_wait h)). simpl.
      rewrite tcp_wait_calls. simpl. split_log 6%nat.
    + rewrite (run_pair (tcp_wait h)). simpl.
      rewrite tcp_wait_calls. simpl. split_log 4%nat.
Qed.


End collect_facts.

(** A run on a host where only the standard tracer can be built: the
    fallback is logged and constructed, the event of the window is published
    as delivered, and the tracer and the Registry Adapter are released. *)
Example tcp_Collect_on_host_without_core_tcp :
  collector.tcp_Collect (H := sample.frozen_clock) (H0 := sample.plain_codec)
    sample.host_without_core_tcp gadgets.NewIGTraceContainerCollector
  = (None,
     {| gadgets.data :=
          {[ "ig-tcptrace" :=
               {[ "1700000000000000000"
                  := "node=;namespace=;pod=;container=;connect 10.0.0.4:443" ]} ]};
        gadgets.ticks := 1;
        gadgets.calls :=
          [ (ext.rlimit_RemoveMemlock, None);
            (ext.ContainerCollection_Initialize, None);
            (ext.tcptracer_NewTracer, Some (Go.opaque "no BTF"));
            (ext.log_Printf
               "Failed to create core tracer, falling back to standard one: no BTF",
             None);
            (ext.standardtracer_NewTracer, None);
            (ext.waiter, None);
            (ext.tracer_Stop, None);
            (ext.ContainerCollection_Close, None) ] |}).
Proof. by vm_compute. Qed.



(** ** The exporter *)

Section export_facts.
Variable az : exporter.Azure.
Import exporter.

(** Items whose upload succeeds are uploaded one after the other, and the
    loop goes on with the rest. *)
Lemma upload_loop_app (e : AzureBlobExporter) (containerURL : string)
    (uploaded rest : list (string * string)) (log : list NetCall) :
  (∀ item, item ∈ uploaded →
     Upload az containerURL (blobName e item.1) item.2 = None) →
  upload_loop az e containerURL (uploaded ++ rest) log
  = upload_loop az e containerURL rest (log ++ (upload_call e containerURL <$> uploaded)).
Proof.
  revert log. induction uploaded as [|[k d] uploaded IH]; intros log Hok.
  - simpl. by rewrite app_nil_r.
  - pose proof (Hok (k, d) ltac:(apply elem_of_cons; by left)) as Hkd.
    simpl in Hkd. simpl. unfold Go.bind, net at 1. simpl.
    rewrite Hkd. rewrite IH.
    + by rewrite <- app_assoc.
    + intros item Hin. apply Hok. apply elem_of_cons. by right.
Qed.

(** C7. When the container URL is obtained and, in the order of the
    iteration, the upload of an item fails after the uploads of the items
    before it succeeded, [Export] returns that failure wrapped with the
    name of the item, and the uploads attempted are those of the items
    before it and its own, one per item, in order: no item after it is
    attempted. *)
Theorem Export_stops_at_first_failing_item
    (e : AzureBlobExporter) (uploaded rest : list (string * string))
    (key data : string) (err : Go.error) (log : list NetCall) :
  let ready := createContainerURL az (runtimeInfo e) log in
  let containerURL := ready.1.1 in
  ready.1.2 = None →
  (∀ item, item ∈ uploaded →
     Upload az containerURL (blobName e item.1) item.2 = None) →
  Upload az containerURL (blobName e key) data = Some err →
  Export az e (uploaded ++ (key, data) :: rest) log
  = (Some (Go.Errorf_w ("append file " +:+ key +:+ " to blob: ") err),
     ready.2 ++ (upload_call e containerURL <$> uploaded)
       ++ [upload_call e containerURL (key, data)]).
Proof.
  intros ready containerURL Hready Hok Hfail.
  unfold Export, Go.bind. fold ready.
  destruct ready as [[url cerr] log'] eqn:Hr. simpl in *. subst cerr.
  subst containerURL.
  rewrite upload_loop_app by done.
  simpl. unfold Go.bind, net at 1. simpl. rewrite Hfail. simpl.
  unfold Go.ret, upload_call. simpl. by rewrite <- app_assoc.
Qed.

(** C8. When the storage account name, the SAS key or the container name
    is empty, [Export] and [ExportReader] return the error [Storage not
    configured.] and make no call to the storage service. *)
Theorem Export_storage_not_configured
    (e : AzureBlobExporter) (items : list (string * string))
    (name content : string) (log : list NetCall) :
  utils.StorageAccountName (runtimeInfo e) = ""
  ∨ utils.StorageSasKey (runtimeInfo e) = ""
  ∨ utils.StorageContainerName (runtimeInfo e) = "" →
  Export az e items log = (Some (Go.errors_New "Storage not configured."), log)
  ∧ ExportReader az e name content log
    = (Some (Go.errors_New "Storage not configured."), log).
Proof.
  intros Hempty.
  assert (Hc : createContainerURL az (runtimeInfo e) log
               = (("", Some (Go.errors_New "Storage not configured.")), log)).
  { unfold createContainerURL.
    destruct Hempty as [-> | [-> | ->]]; simpl;
      rewrite ?orb_true_r; done. }
  unfold Export, ExportReader, Go.bind. by rewrite Hc.
Qed.

End export_facts.

Lemma Export_stops_at_first_failing_item_witness :
  let az := sample.azure_refusing "2022-10-04T09-15-00Z/aks-node-1/nodes" in
  let url := "https://periscope.blob.core.windows.net/logs?sv=2020&sig=abc" in
  exporter.Export az sample.run1
    ([("dns", "a")] ++ ("nodes", "b") :: [("pods", "c")]) []
  = (Some (Go.Errorf_w "append file nodes to blob: " (Go.opaque "403 Forbidden")),
     [exporter.Container_Create url;
      exporter.UploadStreamToBlockBlob url "2022-10-04T09-15-00Z/aks-node-1/dns" "a";
      exporter.UploadStreamToBlockBlob url "2022-10-04T09-15-00Z/aks-node-1/nodes" "b"]).
Proof.
  intros az url.
  apply (Export_stops_at_first_failing_item az sample.run1
           [("dns", "a")] [("pods", "c")] "nodes" "b" (Go.opaque "403 Forbidden") []).
  - reflexivity.
  - intros item ->%list_elem_of_singleton. reflexivity.
  - reflexivity.
Defined.

Lemma Export_storage_not_configured_witness :
  let e := {| exporter.runtimeInfo := sample.node_without_storage;
              exporter.creationTime := "2022-10-04T09:15:00Z" |} in
  let az := sample.azure_refusing "" in
  exporter.Export az e [("dns", "a")] []
  = (Some (Go.errors_New "Storage not configured."), [])
  ∧ exporter.ExportReader az e "periscope.zip" "PK" []
    = (Some (Go.errors_New "Storage not configured."), []).
Proof.
  intros e az.
  apply (Export_storage_not_configured az e [("dns", "a")] "periscope.zip" "PK" []).
  left. reflexivity.
Defined.

(** ** The SystemPerf collector *)

Section systemperf_facts.
Import systemperf.

Lemma Contains_elem_of (flagsList : list string) (flag : string) :
  utils.Contains flagsList flag = true ↔ flag ∈ flagsList.
Proof.
  unfold utils.Contains. rewrite existsb_exists. split.
  - intros (x & Hin & ->%String.eqb_eq). by apply list_elem_of_In.
  - intros Hin. exists flag. split; [by apply list_elem_of_In|apply String.eqb_refl].
Qed.

(** C9. [CheckSupported] returns an error exactly when the exclusion list
    of the runtime contains [connectedCluster]; the message of the error
    names [connectedCluster]; with an empty list no error is returned. *)
Theorem CheckSupported_connectedCluster (runtimeInfo : utils.RuntimeInfo) :
  (is_Some (CheckSupported runtimeInfo)
   ↔ "connectedCluster" ∈ utils.CollectorList runtimeInfo)
  ∧ (∀ err, CheckSupported runtimeInfo = Some err →
       strings.mentions (Go.Error err) "connectedCluster")
  ∧ (utils.CollectorList runtimeInfo = [] → CheckSupported runtimeInfo = None).
Proof.
  unfold CheckSupported. split_and!.
  - rewrite <- Contains_elem_of.
    destruct (utils.Contains _ _); split; [done|by eauto|by intros []|done].
  - intros err Herr.
    destruct (utils.Contains _ _); [|done]. injection Herr as <-.
    exists "Not included because '". eexists. simpl. reflexivity.
  - by intros ->.
Qed.

(** The node loop returns the pending [err] as soon as a memory usage does
    not convert. *)
Lemma node_loop_not_ok (items : list Usage) (noderesult : list NodeMetrics)
    (err : option Go.error) :
  (∃ nodeMetric, nodeMetric ∈ items ∧ (Memory_AsInt64 nodeMetric).2 = false) →
  node_loop items noderesult err = inr err.
Proof.
  revert noderesult. induction items as [|u items IH]; intros noderesult (bad & Hin & Hbad).
  - by apply elem_of_nil in Hin.
  - simpl. destruct (Memory_AsInt64 u) as [mem ok] eqn:Hu.
    destruct ok; simpl; [|done].
    apply IH. exists bad. split; [|done].
    apply elem_of_cons in Hin as [->|Hin]; [|done].
    rewrite Hu in Hbad. discriminate.
Qed.

Context `{Json}.

(** C10. When the metrics client is built and the listing of the node
    metrics succeeds, but the memory usage of some node does not convert to
    an integer, [Collect] returns a nil error and leaves [data] as it was:
    on a new collector no [nodes] entry is stored (nor a [pods] entry). *)
Theorem Collect_returns_nil_when_node_memory_fails
    (cluster : Cluster) (nodeMetrics : list Usage) (data : gmap string string) :
  NewForConfig cluster = None →
  NodeMetricses_List cluster = (nodeMetrics, None) →
  (∃ nodeMetric, nodeMetric ∈ nodeMetrics ∧ (Memory_AsInt64 nodeMetric).2 = false) →
  Collect cluster data = (None, data)
  ∧ (Collect cluster NewSystemPerfCollector).2 !! "nodes" = None.
Proof.
  intros Hconfig Hlist Hbad.
  assert (Hall : ∀ d, Collect cluster d = (None, d)).
  { intros d. unfold Collect. rewrite Hconfig, Hlist.
    by rewrite node_loop_not_ok. }
  split; [apply Hall|]. by rewrite Hall.
Qed.

End systemperf_facts.

Lemma CheckSupported_connectedCluster_witness :
  (is_Some (systemperf.CheckSupported sample.node_without_storage)
   ↔ "connectedCluster" ∈ utils.CollectorList sample.node_without_storage)
  ∧ systemperf.CheckSupported sample.node1 = None.
Proof.
  split.
  - apply (proj1 (CheckSupported_connectedCluster sample.node_without_storage)).
  - apply (proj2 (proj2 (CheckSupported_connectedCluster sample.node1))).
    reflexivity.
Defined.

Lemma Collect_returns_nil_when_node_memory_fails_witness :
  systemperf.Collect (H := sample.count_json) sample.cluster_with_odd_node ∅ = (None, ∅)
  ∧ (systemperf.Collect (H := sample.count_json) sample.cluster_with_odd_node
       systemperf.NewSystemPerfCollector).2 !! "nodes" = None.
Proof.
  apply (@Collect_returns_nil_when_node_memory_fails sample.count_json
           sample.cluster_with_odd_node
           (systemperf.NodeMetricses_List sample.cluster_with_odd_node).1 ∅).
  - reflexivity.
  - reflexivity.
  - eexists. split; [right; left|reflexivity].
Defined.

(** * Further properties *)

Section go_more.
Context {S : Type}.

Lemma exec_for_range_cons {A} (a : A) (l : list A) (body : A → Go.M S unit) (s : S) :
  Go.exec (Go.for_range (a :: l) body) s
  = Go.exec (Go.for_range l body) (Go.exec (body a) s).
Proof. simpl. by rewrite exec_bind. Qed.

End go_more.

(** ** The event trace collector, continued *)

Section sink_more.
Context `{ext.Time}.
Import gadgets.

Lemma PublishEvent_ticks traceName container eventDetails (s : State) :
  ticks (Go.exec (PublishEvent traceName container eventDetails) s)
  = match data s !! traceName with
    | Some _ => Datatypes.S (Datatypes.S (ticks s))
    | None => Datatypes.S (ticks s)
    end.
Proof.
  unfold Go.exec, PublishEvent, Go.bind, info, time_Now, LoadOrStore, Store, Go.ret.
  simpl. by destruct (data s !! traceName).
Qed.

(** X1. [PublishEvent] leaves the bucket of every other trace as it was,
    keeps every entry of its own bucket whose key is not the derived key,
    and makes no external call. *)
Theorem PublishEvent_frame
    (traceName : string) (container : option ext.Container)
    (eventDetails : string) (s : State) :
  let s' := Go.exec (PublishEvent traceName container eventDetails) s in
  (∀ other, other ≠ traceName → data s' !! other = data s !! other)
  ∧ (∀ (b : Bucket) k, data s !! traceName = Some b →
       k ≠ derived_key traceName container s →
       ∃ b' : Bucket, data s' !! traceName = Some b' ∧ b' !! k = b !! k)
  ∧ (∀ (b : Bucket), data s !! traceName = Some b →
       ∃ b' : Bucket, data s' !! traceName = Some b' ∧ dom b ⊆ dom b')
  ∧ calls s' = calls s.
Proof.
  intros s'. subst s'. split_and!.
  - intros other Hne. by apply PublishEvent_other.
  - intros b k Hb Hk. eexists. split; [apply PublishEvent_bucket|].
    rewrite Hb. simpl. by rewrite lookup_insert_ne.
  - intros b Hb. eexists. split; [apply PublishEvent_bucket|].
    rewrite Hb. simpl. rewrite dom_insert_L. set_solver.
  - unfold Go.exec, PublishEvent, Go.bind, info, time_Now, LoadOrStore, Store, Go.ret.
    simpl. by destruct (data s !! traceName).
Qed.

(** X2. An event just published is read back: [GetTracerData] for its
    trace returns a bucket that holds its content under the derived key. *)
Theorem PublishEvent_then_GetTracerData
    (traceName : string) (container : option ext.Container)
    (eventDetails : string) (s : State) :
  ∃ bucket : Bucket,
    GetTracerData traceName (Go.exec (PublishEvent traceName container eventDetails) s)
    = Go.Returned bucket
    ∧ bucket !! derived_key traceName container s = Some eventDetails.
Proof.
  unfold GetTracerData. rewrite PublishEvent_bucket.
  eexists. split; [done|]. apply lookup_insert_eq.
Qed.

(** *** No event is lost while the formatted readings differ *)

Lemma append_inv_head (p a b : string) : p +:+ a = p +:+ b → a = b.
Proof. induction p as [|c p IH]; simpl; [done|]. intros [= Heq]. by apply IH. Qed.

Lemma append_inv_space (a b : string) : a +:+ " " = b +:+ " " → a = b.
Proof.
  revert b. induction a as [|c a IH]; intros [|d b]; simpl; intros Heq.
  - done.
  - injection Heq as _ Heq. by destruct b.
  - injection Heq as _ Heq. by destruct a.
  - injection Heq as -> Heq. f_equal. by apply IH.
Qed.

(** For one container, the text of [info] determines the formatted time. *)
Lemma info_text_time_inj (container : option ext.Container) (t1 t2 : string) :
  info_text container t1 = info_text container t2 → t1 = t2.
Proof.
  destruct container as [c|]; simpl; [|done].
  intros Heq. do 6 apply append_inv_head in Heq.
  by apply append_inv_space.
Qed.

Lemma bucket_of_new traceName :
  tracedata.bucket_of traceName NewIGTraceContainerCollector = ∅.
Proof. unfold tracedata.bucket_of. simpl. by rewrite lookup_empty. Qed.

Lemma bucket_of_PublishEvent traceName container eventDetails (s : State) :
  tracedata.bucket_of traceName
    (Go.exec (PublishEvent traceName container eventDetails) s)
  = <[derived_key traceName container s := eventDetails]>
      (tracedata.bucket_of traceName s).
Proof. unfold tracedata.bucket_of. by rewrite PublishEvent_bucket. Qed.

Lemma publish_all_distinct_readings
    (traceName : string) (container : option ext.Container)
    (contents : list string) (s : State) :
  (∀ i j, ext.RFC3339Nano (ext.wall i) = ext.RFC3339Nano (ext.wall j) → i = j) →
  (∀ k, is_Some (tracedata.bucket_of traceName s !! k) →
     ∃ i, (i < ticks s)%nat
          ∧ k = info_text container (ext.RFC3339Nano (ext.wall i))) →
  (map_to_list
     (tracedata.bucket_of traceName
        (Go.exec (publish_all ((λ d, (traceName, container, d)) <$> contents)) s))).*2
  ≡ₚ (map_to_list (tracedata.bucket_of traceName s)).*2 ++ contents.
Proof.
  intros Hinj. revert s.
  induction contents as [|d contents IH]; intros s Hkeys.
  - simpl. by rewrite app_nil_r.
  - rewrite fmap_cons, publish_all_cons. simpl.
    set (s1 := Go.exec (PublishEvent traceName container d) s).
    set (t := match data s !! traceName with
              | Some _ => Datatypes.S (ticks s) | None => ticks s end).
    assert (Hb1 : tracedata.bucket_of traceName s1
                  = <[info_text container (ext.RFC3339Nano (ext.wall t)) := d]>
                      (tracedata.bucket_of traceName s)).
    { unfold s1. by rewrite bucket_of_PublishEvent. }
    assert (Ht : (ticks s ≤ t ∧ t < ticks s1)%nat).
    { unfold s1. rewrite PublishEvent_ticks. unfold t.
      destruct (data s !! traceName); lia. }
    assert (Hfresh : tracedata.bucket_of traceName s
                       !! info_text container (ext.RFC3339Nano (ext.wall t)) = None).
    { apply eq_None_not_Some. intros Hsome.
      destruct (Hkeys _ Hsome) as (i & Hi & Heq).
      apply info_text_time_inj, Hinj in Heq. lia. }
    rewrite IH.
    + rewrite Hb1, map_to_list_insert by done. simpl.
      by rewrite <- Permutation_middle.
    + intros k Hk. rewrite Hb1 in Hk.
      apply lookup_insert_is_Some in Hk as [<-|[_ Hk]].
      * exists t. split; [lia|done].
      * destruct (Hkeys _ Hk) as (i & Hi & Heq). exists i. split; [lia|done].
Qed.

(** X3. When the formatted readings of the clock are pairwise distinct,
    events published one after the other to a new collector, for one trace
    and one container (or none), are all kept: the contents of the bucket
    are the published contents, each as often as it was published, so the
    bucket has one entry per event. *)
Theorem publish_all_keeps_every_event
    (traceName : string) (container : option ext.Container)
    (contents : list string) :
  (∀ i j, ext.RFC3339Nano (ext.wall i) = ext.RFC3339Nano (ext.wall j) → i = j) →
  let s := Go.exec (publish_all ((λ d, (traceName, container, d)) <$> contents))
             NewIGTraceContainerCollector in
  (map_to_list (tracedata.bucket_of traceName s)).*2 ≡ₚ contents
  ∧ size (tracedata.bucket_of traceName s) = length contents.
Proof.
  intros Hinj s.
  assert (Hperm : (map_to_list (tracedata.bucket_of traceName s)).*2 ≡ₚ contents).
  { subst s. rewrite publish_all_distinct_readings; [| done |].
    - by rewrite bucket_of_new, map_to_list_empty.
    - intros k Hk. rewrite bucket_of_new, lookup_empty in Hk. by destruct Hk. }
  split; [done|].
  rewrite <- Hperm, length_fmap. symmetry. apply length_map_to_list.
Qed.

End sink_more.

(** The decimal text of a positive reading determines the reading. *)
Lemma decimal_text_inj (z z' : Z) :
  0 < z → 0 < z' →
  NilZero.string_of_int (Z.to_int z) = NilZero.string_of_int (Z.to_int z') → z = z'.
Proof.
  intros Hz Hz' Heq. apply DecimalZ.to_int_inj.
  apply (f_equal NilZero.int_of_string) in Heq.
  destruct z as [|p|p], z' as [|p'|p']; try lia.
  change (Z.to_int (Z.pos p)) with (Decimal.Pos (Pos.to_uint p)) in *.
  change (Z.to_int (Z.pos p')) with (Decimal.Pos (Pos.to_uint p')) in *.
  rewrite !NilZero.isi in Heq; try discriminate;
    try (intros [= Hnil]; by apply DecimalPos.Unsigned.to_uint_nonnil in Hnil).
  congruence.
Qed.

Lemma publish_all_keeps_every_event_witness :
  let s := Go.exec (gadgets.publish_all (H := sample.ticking_clock)
                      ((λ d, ("ig-tcptrace", None, d)) <$> ["syn"; "syn"; "fin"]))
             gadgets.NewIGTraceContainerCollector in
  (map_to_list (tracedata.bucket_of "ig-tcptrace" s)).*2 ≡ₚ ["syn"; "syn"; "fin"]
  ∧ size (tracedata.bucket_of "ig-tcptrace" s) = 3%nat.
Proof.
  apply (@publish_all_keeps_every_event sample.ticking_clock "ig-tcptrace" None
           ["syn"; "syn"; "fin"]).
  intros i j Heq. apply decimal_text_inj in Heq; simpl in *; lia.
Defined.

(** ** The trace collectors, continued *)

Section collect_more.
Context `{ext.Time} `{eventtypes.Codec}.
Import collector.

(** X4. [InitContainerCollection] succeeds exactly when the memlock limit
    is removed and the container collection initializes; when the limit
    cannot be removed the collection is not initialized at all; the error
    wraps the cause; the buckets and the clock are not touched. *)
Theorem InitContainerCollection_outcome
    (h : ext.Host eventtypes.Event) (s : gadgets.State) :
  let result := Go.eval (gadgets.InitContainerCollection h) s in
  let s' := Go.exec (gadgets.InitContainerCollection h) s in
  (result = None ↔ ext.RemoveMemlock h = None ∧ ext.Initialize h = None)
  ∧ (∀ e, ext.RemoveMemlock h = Some e →
       result = Some (Go.Errorf_w "failed to remove memlock: " e)
       ∧ gadgets.calls s' = gadgets.calls s ++ [(ext.rlimit_RemoveMemlock, Some e)])
  ∧ (∀ e, ext.RemoveMemlock h = None → ext.Initialize h = Some e →
       result = Some (Go.Errorf_w "failed to initialize container collection: " e))
  ∧ gadgets.data s' = gadgets.data s ∧ gadgets.ticks s' = gadgets.ticks s.
Proof.
  intros result s'. subst result s'.
  unfold Go.eval, Go.exec, gadgets.InitContainerCollection, Go.bind, gadgets.call, Go.ret.
  simpl.
  destruct (ext.RemoveMemlock h) as [e1|]; simpl;
    [|destruct (ext.Initialize h) as [e2|]; simpl];
    (split_and!; [split; [done|by intros [? ?]] | by intros ? [= <-] | try done | done | done]).
  - by intros ? _ [= <-].
Qed.

(** Unfolds a [Collect] down to the calls it makes. *)
Ltac run_collect :=
  unfold Go.exec, Go.eval, dns_Collect, tcp_Collect, Go.func, Go.fbind, Go.lift,
    Go.defer, Go.Return, Go.fret, gadgets.InitContainerCollection, gadgets.call,
    closing, Go.bind, Go.ret; simpl.

(** Goes through the ways of cutting a log at a failed call. *)
Ltac cut_log :=
  repeat match goal with
         | Hcut : _ = ?pre ++ _ :: _ |- _ =>
             is_var pre; destruct pre as [|? pre]; simpl in Hcut; simplify_eq
         end.

(** Whether a call is in a log that is known call by call, against whether
    [Collect] returned nil. *)
Ltac in_log :=
  split;
  [ intros Hin; try done;
    repeat (apply elem_of_cons in Hin as [Hin|Hin]; [discriminate Hin|]);
    by apply elem_of_nil in Hin
  | intros Hnil; try done; rewrite !elem_of_cons; tauto ].

(** Settles what is said of a log of calls that is known call by call. *)
Ltac settle_log :=
  rewrite <- ?app_assoc; simpl; eexists; split; [reflexivity|];
  split_and!;
  [ split; [by intros ?|by intros (? & ? & ? & ?)]
  | in_log
  | intros pre failed cause post Hcut; cut_log;
    (split; [done|eexists; split; reflexivity]) ].

(** X5. The DNS collector's [Collect] returns nil exactly when the four
    steps that set the trace up succeed, and the waiter is called exactly
    in that case. A call that fails is followed by releases only, and the
    error returned then has the error of that call at the bottom of its
    chain. *)
Theorem dns_Collect_outcome
    (runtimeInfo : utils.RuntimeInfo) (h : ext.Host eventtypes.Event)
    (s : gadgets.State) :
  let result := Go.eval (dns_Collect runtimeInfo h) s in
  ∃ new,
    gadgets.calls (Go.exec (dns_Collect runtimeInfo h) s) = gadgets.calls s ++ new
    ∧ (result = None ↔
         ext.RemoveMemlock h = None ∧ ext.Initialize h = None
         ∧ ext.dns_NewTracer h = None ∧ ext.ConnectToContainerCollection h = None)
    ∧ ((ext.waiter, None) ∈ new ↔ result = None)
    ∧ (∀ pre c e post, new = pre ++ (c, Some e) :: post →
         length (omap ext.releases post) = length post
         ∧ ∃ err, result = Some err
                  ∧ errors.innermost err = errors.innermost e).
Proof.
  intros result. subst result. run_collect.
  destruct (ext.RemoveMemlock h) as [e1|]; simpl; [settle_log|].
  destruct (ext.Initialize h) as [e2|]; simpl; [settle_log|].
  destruct (ext.dns_NewTracer h) as [e3|]; simpl; [settle_log|].
  destruct (ext.ConnectToContainerCollection h) as [e4|]; simpl; [settle_log|].
  rewrite (run_pair (dns_wait runtimeInfo h)). simpl.
  rewrite dns_wait_calls. simpl. settle_log.
Qed.

(** X6. The TCP collector's [Collect] returns nil exactly when the Registry
    Adapter is built and one of the two tracers can be constructed; the
    waiter is called, and the tracer stopped, exactly in that case; and
    when the optimized tracer is constructed, the standard one is not
    constructed. *)
Theorem tcp_Collect_outcome (h : ext.Host eventtypes.Event) (s : gadgets.State) :
  let result := Go.eval (tcp_Collect h) s in
  ∃ new,
    gadgets.calls (Go.exec (tcp_Collect h) s) = gadgets.calls s ++ new
    ∧ (result = None ↔
         ext.RemoveMemlock h = None ∧ ext.Initialize h = None
         ∧ (ext.tcp_NewTracer h = None ∨ ext.standard_NewTracer h = None))
    ∧ ((ext.waiter, None) ∈ new ↔ result = None)
    ∧ ((ext.tracer_Stop, None) ∈ new ↔ result = None)
    ∧ (ext.tcp_NewTracer h = None →
       ∀ c r, (c, r) ∈ new → c ≠ ext.standardtracer_NewTracer).
Proof.
  intros result. subst result. run_collect.
  destruct (ext.RemoveMemlock h) as [e1|]; simpl;
    [rewrite <- ?app_assoc; simpl; eexists; split; [reflexivity|];
     split_and!; [split; [done|by intros (? & ? & ?)]|in_log|in_log|];
     intros Hcore c r Hin; apply list_elem_of_singleton in Hin as [= -> _]; done|].
  destruct (ext.Initialize h) as [e2|]; simpl;
    [rewrite <- ?app_assoc; simpl; eexists; split; [reflexivity|];
     split_and!; [split; [done|by intros (? & ? & ?)]|in_log|in_log|];
     intros Hcore c r Hin;
     repeat (apply elem_of_cons in Hin as [[= -> _]|Hin]; [done|]);
     by apply elem_of_nil in Hin|].
  destruct (ext.tcp_NewTracer h) as [e3|]; simpl.
  - destruct (ext.standard_NewTracer h) as [e4|]; simpl.
    + rewrite <- ?app_assoc; simpl; eexists; split; [reflexivity|].
      split_and!; [split; [done|by intros (? & ? & [?|?])]|in_log|in_log|done].
    + rewrite (run_pair (tcp_wait h)). simpl. rewrite tcp_wait_calls. simpl.
      rewrite <- ?app_assoc; simpl; eexists; split; [reflexivity|].
      split_and!; [split; [by eauto|done]|in_log|in_log|done].
  - rewrite (run_pair (tcp_wait h)). simpl. rewrite tcp_wait_calls. simpl.
    rewrite <- ?app_assoc; simpl; eexists; split; [reflexivity|].
    split_and!; [split; [by eauto|done]|in_log|in_log|].
    intros _ c r Hin.
    repeat (apply elem_of_cons in Hin as [[= -> _]|Hin]; [done|]).
    by apply elem_of_nil in Hin.
Qed.

(** X7. A [Collect] that returns an error has published nothing: the
    buckets are as they were and the clock was not read. *)
Theorem failed_Collect_publishes_nothing
    (runtimeInfo : utils.RuntimeInfo) (h : ext.Host eventtypes.Event)
    (s : gadgets.State) :
  (is_Some (Go.eval (dns_Collect runtimeInfo h) s) →
     gadgets.data (Go.exec (dns_Collect runtimeInfo h) s) = gadgets.data s
     ∧ gadgets.ticks (Go.exec (dns_Collect runtimeInfo h) s) = gadgets.ticks s)
  ∧ (is_Some (Go.eval (tcp_Collect h) s) →
     gadgets.data (Go.exec (tcp_Collect h) s) = gadgets.data s
     ∧ gadgets.ticks (Go.exec (tcp_Collect h) s) = gadgets.ticks s).
Proof.
  run_collect.
  destruct (ext.RemoveMemlock h) as [e1|]; simpl; [done|].
  destruct (ext.Initialize h) as [e2|]; simpl; [done|].
  split.
  - destruct (ext.dns_NewTracer h) as [e3|]; simpl; [done|].
    destruct (ext.ConnectToContainerCollection h) as [e4|]; simpl; [done|].
    rewrite (run_pair (dns_wait runtimeInfo h)). simpl. by intros [? ?].
  - destruct (ext.tcp_NewTracer h) as [e3|]; simpl.
    + destruct (ext.standard_NewTracer h) as [e4|]; simpl; [done|].
      rewrite (run_pair (tcp_wait h)). simpl. by intros [? ?].
    + rewrite (run_pair (tcp_wait h)). simpl. by intros [? ?].
Qed.

(** *** What the window leaves in the bucket *)

Lemma dnsEventCallback_publishes runtimeInfo (c : ext.Container)
    (e : eventtypes.Event) (s : gadgets.State) :
  ∃ enriched : eventtypes.Event,
    Go.exec (dnsEventCallback runtimeInfo (Some c) e) s
    = Go.exec (gadgets.PublishEvent dns_GetName (Some c)
                 (eventtypes.EventString enriched)) s
    ∧ eventtypes.Node enriched = utils.HostNodeName runtimeInfo
    ∧ eventtypes.payload enriched = eventtypes.payload e.
Proof.
  unfold dnsEventCallback.
  destruct (ext.HostNetwork c); simpl;
    (eexists; split; [unfold Go.exec; by rewrite then_Returned|done]).
Qed.

Lemma dns_deliver_cons runtimeInfo c e
    (window : list (ext.Container * eventtypes.Event)) (s : gadgets.State) :
  ∃ enriched : eventtypes.Event,
    Go.exec (Go.for_range ((c, e) :: window)
               (λ ce, (_ <- dnsEventCallback runtimeInfo (Some ce.1) ce.2 ;;
                       Go.ret tt)%go)) s
    = Go.exec (Go.for_range window
                 (λ ce, (_ <- dnsEventCallback runtimeInfo (Some ce.1) ce.2 ;;
                         Go.ret tt)%go))
        (Go.exec (gadgets.PublishEvent dns_GetName (Some c)
                    (eventtypes.EventString enriched)) s)
    ∧ eventtypes.Node enriched = utils.HostNodeName runtimeInfo
    ∧ eventtypes.payload enriched = eventtypes.payload e.
Proof.
  destruct (dnsEventCallback_publishes runtimeInfo c e s) as (enriched & Hexec & Hrest).
  exists enriched. split; [|done].
  rewrite exec_for_range_cons, exec_bind.
  change (Go.exec (Go.ret tt) ?x) with x. by rewrite <- Hexec.
Qed.

(** A bucket that holds an entry still holds one after a window, and a
    window that is not empty leaves one that does. *)
Lemma dns_deliver_present runtimeInfo
    (window : list (ext.Container * eventtypes.Event)) (s : gadgets.State) :
  window ≠ [] ∨ (∃ b : gadgets.Bucket, gadgets.data s !! dns_GetName = Some b ∧ b ≠ ∅) →
  ∃ b : gadgets.Bucket,
    gadgets.data
      (Go.exec (Go.for_range window
                  (λ ce, (_ <- dnsEventCallback runtimeInfo (Some ce.1) ce.2 ;;
                          Go.ret tt)%go)) s) !! dns_GetName = Some b
    ∧ b ≠ ∅.
Proof.
  revert s. induction window as [|[c e] window IH]; intros s Hb.
  - by destruct Hb.
  - destruct (dns_deliver_cons runtimeInfo c e window s) as (enriched & -> & _).
    apply IH. right. eexists. split; [apply PublishEvent_bucket|apply insert_non_empty].
Qed.

Lemma dns_deliver_contents runtimeInfo
    (window : list (ext.Container * eventtypes.Event)) (s : gadgets.State)
    (b : gadgets.Bucket) k v :
  gadgets.data
    (Go.exec (Go.for_range window
                (λ ce, (_ <- dnsEventCallback runtimeInfo (Some ce.1) ce.2 ;;
                        Go.ret tt)%go)) s) !! dns_GetName = Some b →
  b !! k = Some v →
  (∃ b0 : gadgets.Bucket, gadgets.data s !! dns_GetName = Some b0 ∧ b0 !! k = Some v)
  ∨ ∃ c e enriched,
      (c, e) ∈ window ∧ v = eventtypes.EventString enriched
      ∧ eventtypes.Node enriched = utils.HostNodeName runtimeInfo
      ∧ eventtypes.payload enriched = eventtypes.payload e.
Proof.
  revert s. induction window as [|[c e] window IH]; intros s Hb Hk.
  - left. by exists b.
  - destruct (dns_deliver_cons runtimeInfo c e window s) as (enriched & Hexec & Hn & Hp).
    rewrite Hexec in Hb.
    destruct (IH _ Hb Hk) as [(b0 & Hb0 & Hk0)|(c' & e' & en' & Hin & Hrest)].
    + rewrite PublishEvent_bucket in Hb0. injection Hb0 as <-.
      apply lookup_insert_Some in Hk0 as [[_ <-]|[_ Hk0]].
      * right. exists c, e, enriched. split; [by left|done].
      * destruct (gadgets.data s !! dns_GetName) as [b1|] eqn:Hb1; simpl in Hk0.
        -- left. by exists b1.
        -- by rewrite lookup_empty in Hk0.
    + right. exists c', e', en'. split; [by right|done].
Qed.

(** What [dns_wait] leaves in the bucket of the DNS collector. *)
Lemma dns_wait_data runtimeInfo (h : ext.Host eventtypes.Event) (s : gadgets.State) :
  let s' := Go.exec (dns_wait runtimeInfo h) s in
  (ext.dns_window h = [] → gadgets.data s' = gadgets.data s)
  ∧ (ext.dns_window h ≠ [] →
       ∃ b : gadgets.Bucket, gadgets.data s' !! dns_GetName = Some b ∧ b ≠ ∅)
  ∧ (∀ (b : gadgets.Bucket) k v,
       gadgets.data s' !! dns_GetName = Some b → b !! k = Some v →
       (∃ b0 : gadgets.Bucket,
          gadgets.data s !! dns_GetName = Some b0 ∧ b0 !! k = Some v)
       ∨ ∃ c e enriched,
           (c, e) ∈ ext.dns_window h ∧ v = eventtypes.EventString enriched
           ∧ eventtypes.Node enriched = utils.HostNodeName runtimeInfo
           ∧ eventtypes.payload enriched = eventtypes.payload e).
Proof.
  intros s'. subst s'. unfold dns_wait. rewrite exec_bind.
  set (s1 := Go.exec (gadgets.call ext.waiter None) s).
  change (gadgets.data s) with (gadgets.data s1).
  split_and!.
  - by intros ->.
  - intros Hne. apply dns_deliver_present. by left.
  - intros b k v. apply dns_deliver_contents.
Qed.

(** X8. After the DNS collector's [Collect] on a collector that held no
    bucket for it, [GetData] returns, a bucket that is not empty, when
    [Collect] returned nil and the window delivered at least one event; it
    panics otherwise, also after a [Collect] that returned nil. Every
    content of the bucket is the text of an event of the window with its
    node set to the host node. *)
Theorem dns_GetData_after_Collect {DataValueMap : Type}
    (ToDataValueMap : gadgets.Bucket → DataValueMap)
    (runtimeInfo : utils.RuntimeInfo) (h : ext.Host eventtypes.Event)
    (s : gadgets.State) :
  gadgets.data s !! "ig-dnstrace" = None →
  let s' := Go.exec (dns_Collect runtimeInfo h) s in
  let delivered := Go.eval (dns_Collect runtimeInfo h) s = None ∧ ext.dns_window h ≠ [] in
  (delivered → ∃ bucket : gadgets.Bucket,
     tracedata.dns_GetData ToDataValueMap s' = Go.Returned (ToDataValueMap bucket)
     ∧ bucket ≠ ∅)
  ∧ (¬ delivered → ∃ msg, tracedata.dns_GetData ToDataValueMap s' = Go.Panicked msg)
  ∧ (∀ (bucket : gadgets.Bucket) k v,
       gadgets.data s' !! "ig-dnstrace" = Some bucket → bucket !! k = Some v →
       ∃ c e enriched,
         (c, e) ∈ ext.dns_window h ∧ v = eventtypes.EventString enriched
         ∧ eventtypes.Node enriched = utils.HostNodeName runtimeInfo
         ∧ eventtypes.payload enriched = eventtypes.payload e).
Proof.
  intros Hnone s' delivered. subst s' delivered.
  unfold tracedata.dns_GetData, tracedata.GetData, gadgets.GetTracerData, dns_GetName.
  run_collect.
  destruct (ext.RemoveMemlock h) as [e1|]; simpl;
    [rewrite Hnone; split_and!; [by intros [? ?]|intros _; by eexists|done]|].
  destruct (ext.Initialize h) as [e2|]; simpl;
    [rewrite Hnone; split_and!; [by intros [? ?]|intros _; by eexists|done]|].
  destruct (ext.dns_NewTracer h) as [e3|]; simpl;
    [rewrite Hnone; split_and!; [by intros [? ?]|intros _; by eexists|done]|].
  destruct (ext.ConnectToContainerCollection h) as [e4|]; simpl;
    [rewrite Hnone; split_and!; [by intros [? ?]|intros _; by eexists|done]|].
  rewrite (run_pair (dns_wait runtimeInfo h)). simpl.
  match goal with
  | |- context [Go.exec (dns_wait runtimeInfo h) ?st] =>
      destruct (dns_wait_data runtimeInfo h st) as (Hempty & Hsome & Hcontents)
  end.
  simpl in Hempty, Hcontents. split_and!.
  - intros [_ Hne]. destruct (Hsome Hne) as (b & Hb & Hbne).
    unfold dns_GetName in Hb. rewrite Hb. by exists b.
  - intros Hnot. destruct (ext.dns_window h) as [|ce window] eqn:Hw.
    + rewrite Hempty, Hnone by done. by eexists.
    + by destruct Hnot.
  - intros bucket k v Hb Hk.
    destruct (Hcontents bucket k v Hb Hk) as [(b0 & Hb0 & _)|Hin]; [|done].
    unfold dns_GetName in Hb0. by rewrite Hnone in Hb0.
Qed.

(** *** The same for the TCP collector *)

Lemma tcp_deliver_publish_all (window : list eventtypes.Event) (s : gadgets.State) :
  Go.exec (Go.for_range window tcpEventCallback) s
  = Go.exec (gadgets.publish_all
               ((λ e, (tcp_GetName, None, eventtypes.EventString e)) <$> window)) s.
Proof.
  revert s. induction window as [|e window IH]; intros s; [done|].
  rewrite fmap_cons, publish_all_cons, exec_for_range_cons. apply IH.
Qed.

Lemma tcp_wait_data (h : ext.Host eventtypes.Event) (s : gadgets.State) :
  let s' := Go.exec (tcp_wait h) s in
  (ext.tcp_window h = [] → gadgets.data s' = gadgets.data s)
  ∧ (ext.tcp_window h ≠ [] →
       ∃ b : gadgets.Bucket, gadgets.data s' !! tcp_GetName = Some b ∧ b ≠ ∅)
  ∧ (∀ (b : gadgets.Bucket) k v,
       gadgets.data s' !! tcp_GetName = Some b → b !! k = Some v →
       (∃ b0 : gadgets.Bucket,
          gadgets.data s !! tcp_GetName = Some b0 ∧ b0 !! k = Some v)
       ∨ ∃ e, e ∈ ext.tcp_window h ∧ v = eventtypes.EventString e).
Proof.
  intros s'. subst s'. unfold tcp_wait. rewrite exec_bind, tcp_deliver_publish_all.
  set (s1 := Go.exec (gadgets.call ext.waiter None) s).
  change (gadgets.data s) with (gadgets.data s1).
  split_and!.
  - by intros ->.
  - intros Hne. apply publish_all_present. left.
    destruct (ext.tcp_window h) as [|e window]; [done|].
    rewrite !fmap_cons. simpl. by left.
  - intros b k v Hb Hk.
    destruct (publish_all_contents _ _ _ _ _ _ Hb Hk) as [Hold|(c & Hin)]; [by left|].
    right. apply list_elem_of_fmap in Hin as (e & [= -> ->] & Hin). by exists e.
Qed.

(** X9. After the TCP collector's [Collect] on a collector that held no
    bucket for it, [GetData] returns, a bucket that is not empty, when
    [Collect] returned nil and the window delivered at least one event; it
    panics otherwise, also after a [Collect] that returned nil. Every
    content of the bucket is the text of an event of the window, as
    delivered. *)
Theorem tcp_GetData_after_Collect {DataValueMap : Type}
    (ToDataValueMap : gadgets.Bucket → DataValueMap)
    (h : ext.Host eventtypes.Event) (s : gadgets.State) :
  gadgets.data s !! "ig-tcptrace" = None →
  let s' := Go.exec (tcp_Collect h) s in
  let delivered := Go.eval (tcp_Collect h) s = None ∧ ext.tcp_window h ≠ [] in
  (delivered → ∃ bucket : gadgets.Bucket,
     tracedata.tcp_GetData ToDataValueMap s' = Go.Returned (ToDataValueMap bucket)
     ∧ bucket ≠ ∅)
  ∧ (¬ delivered → ∃ msg, tracedata.tcp_GetData ToDataValueMap s' = Go.Panicked msg)
  ∧ (∀ (bucket : gadgets.Bucket) k v,
       gadgets.data s' !! "ig-tcptrace" = Some bucket → bucket !! k = Some v →
       ∃ e, e ∈ ext.tcp_window h ∧ v = eventtypes.EventString e).
Proof.
  intros Hnone s' delivered. subst s' delivered.
  unfold tracedata.tcp_GetData, tracedata.GetData, gadgets.GetTracerData, tcp_GetName.
  run_collect.
  assert (Hrun : ∀ st, gadgets.data st = gadgets.data s →
    let after := gadgets.data (Go.exec (tcp_wait h) st) !! "ig-tcptrace" in
    (ext.tcp_window h ≠ [] → ∃ bucket : gadgets.Bucket, after = Some bucket ∧ bucket ≠ ∅)
    ∧ (ext.tcp_window h = [] → after = None)
    ∧ (∀ (bucket : gadgets.Bucket) k v,
         after = Some bucket → bucket !! k = Some v →
         ∃ e, e ∈ ext.tcp_window h ∧ v = eventtypes.EventString e)).
  { intros st Hst after. subst after.
    destruct (tcp_wait_data h st) as (Hempty & Hsome & Hcontents).
    simpl in Hempty, Hcontents. unfold tcp_GetName in *. rewrite Hst in *.
    split_and!; [done|by intros ->%Hempty| ].
    intros bucket k v Hb Hk.
    destruct (Hcontents bucket k v Hb Hk) as [(b0 & Hb0 & _)|Hin]; [|done].
    by rewrite Hnone in Hb0. }
  destruct (ext.RemoveMemlock h) as [e1|]; simpl;
    [rewrite Hnone; split_and!; [by intros [? ?]|intros _; by eexists|done]|].
  destruct (ext.Initialize h) as [e2|]; simpl;
    [rewrite Hnone; split_and!; [by intros [? ?]|intros _; by eexists|done]|].
  assert (Hend : ∀ st, gadgets.data st = gadgets.data s →
    let after := gadgets.data (Go.exec (tcp_wait h) st) !! "ig-tcptrace" in
    (@None Go.error = None ∧ ext.tcp_window h ≠ [] →
       ∃ bucket : gadgets.Bucket,
         match match after with
               | Some events => Go.Returned events
               | None => Go.Panicked
                   "interface conversion: interface {} is nil, not map[string]string"
               end with
         | Go.Returned events => Go.Returned (ToDataValueMap events)
         | Go.Panicked msg => Go.Panicked msg
         end = Go.Returned (ToDataValueMap bucket) ∧ bucket ≠ ∅)
    ∧ (¬ (@None Go.error = None ∧ ext.tcp_window h ≠ []) →
         ∃ msg,
           match match after with
                 | Some events => Go.Returned events
                 | None => Go.Panicked
                     "interface conversion: interface {} is nil, not map[string]string"
                 end with
           | Go.Returned events => Go.Returned (ToDataValueMap events)
           | Go.Panicked msg => Go.Panicked msg
           end = Go.Panicked msg)
    ∧ (∀ (bucket : gadgets.Bucket) k v,
         after = Some bucket → bucket !! k = Some v →
         ∃ e, e ∈ ext.tcp_window h ∧ v = eventtypes.EventString e)).
  { intros st Hst after.
    destruct (Hrun st Hst) as (Hsome & Hempty & Hcontents). fold after in Hsome, Hempty, Hcontents.
    split_and!; [| |done].
    - intros [_ Hne]. destruct (Hsome Hne) as (b & -> & Hbne). by exists b.
    - intros Hnot. rewrite Hempty; [by eexists|].
      destruct (ext.tcp_window h); [done|]. by destruct Hnot. }
  destruct (ext.tcp_NewTracer h) as [e3|]; simpl.
  - destruct (ext.standard_NewTracer h) as [e4|]; simpl;
      [rewrite Hnone; split_and!; [by intros [? ?]|intros _; by eexists|done]|].
    rewrite (run_pair (tcp_wait h)). simpl. by apply Hend.
  - rewrite (run_pair (tcp_wait h)). simpl. by apply Hend.
Qed.

End collect_more.

Lemma dns_GetData_after_Collect_witness :
  let s := gadgets.NewIGTraceContainerCollector in
  let Collect := collector.dns_Collect (H := sample.frozen_clock)
                   (H0 := sample.plain_codec) sample.node1 sample_more.quiet_host in
  Go.eval Collect s = None
  ∧ ∃ msg, tracedata.dns_GetData (λ b, b) (Go.exec Collect s) = Go.Panicked msg.
Proof.
  split; [reflexivity|].
  apply (proj1 (proj2 (@dns_GetData_after_Collect sample.frozen_clock sample.plain_codec
                         gadgets.Bucket (λ b, b) sample.node1 sample_more.quiet_host
                         gadgets.NewIGTraceContainerCollector eq_refl))).
  intros [_ Hwindow]. by apply Hwindow.
Defined.

Lemma tcp_GetData_after_Collect_witness :
  let s := gadgets.NewIGTraceContainerCollector in
  let Collect := collector.tcp_Collect (H := sample.frozen_clock)
                   (H0 := sample.plain_codec) sample.host_without_core_tcp in
  ∃ bucket : gadgets.Bucket,
    tracedata.tcp_GetData (λ b, b) (Go.exec Collect s) = Go.Returned bucket
    ∧ bucket ≠ ∅.
Proof.
  apply (proj1 (@tcp_GetData_after_Collect sample.frozen_clock sample.plain_codec
                  gadgets.Bucket (λ b, b) sample.host_without_core_tcp
                  gadgets.NewIGTraceContainerCollector eq_refl)).
  split; [reflexivity|discriminate].
Defined.

(** ** The exporter, continued *)

Section export_more.
Variable az : exporter.Azure.
Import exporter.

Lemma configured_test (runtimeInfo : utils.RuntimeInfo) :
  exporter_url.configured runtimeInfo →
  String.eqb (utils.StorageAccountName runtimeInfo) ""
  || String.eqb (utils.StorageSasKey runtimeInfo) ""
  || String.eqb (utils.StorageContainerName runtimeInfo) "" = false.
Proof.
  intros (H1 & H2 & H3).
  by rewrite !orb_false_iff, !String.eqb_neq.
Qed.

(** [createContainerURL] once the storage settings are known to be given. *)
Lemma createContainerURL_configured (runtimeInfo : utils.RuntimeInfo)
    (log : list NetCall) :
  exporter_url.configured runtimeInfo →
  let url := exporter_url.text az runtimeInfo in
  createContainerURL az runtimeInfo log
  = match url_Parse az url with
    | Some err => (("", Some (Go.Errorf_w "build blob container url: " err)), log)
    | None =>
        match storageKeyTypes !! utils.StorageSasKeyType runtimeInfo with
        | Some _ => ((url, None), log)
        | None =>
            match Create az url with
            | Some err =>
                match ServiceCode err with
                | Some code =>
                    if String.eqb code ServiceCodeContainerAlreadyExists
                    then ((url, None), log ++ [Container_Create url])
                    else (("", Some (Go.Errorf_w "create container with storage error: "
                                       (cause err))),
                          log ++ [Container_Create url])
                | None => (("", Some (Go.Errorf_w "create container: " (cause err))),
                           log ++ [Container_Create url])
                end
            | None => ((url, None), log ++ [Container_Create url])
            end
        end
    end.
Proof.
  intros Hconf url. unfold createContainerURL. rewrite configured_test by done.
  change ("https://" +:+ utils.StorageAccountName runtimeInfo +:+ ".blob."
          +:+ GetStorageEndpointSuffix az +:+ "/"
          +:+ utils.StorageContainerName runtimeInfo +:+ utils.StorageSasKey runtimeInfo)
    with url.
  cbv zeta.
  destruct (url_Parse az url); [done|].
  destruct (storageKeyTypes !! utils.StorageSasKeyType runtimeInfo); [done|].
  unfold Go.bind, net, Go.ret.
  destruct (Create az url) as [err|]; [|done].
  destruct (ServiceCode err) as [code|]; [|done].
  by destruct (String.eqb code ServiceCodeContainerAlreadyExists).
Qed.

(** X10. With the storage settings given, a URL that parses and a SAS key
    of type [Container], the container is never created: [Export] goes
    straight to the uploads, under the container URL built from the
    settings. *)
Theorem Export_container_key_creates_nothing
    (e : AzureBlobExporter) (items : list (string * string)) (log : list NetCall) :
  exporter_url.configured (runtimeInfo e) →
  url_Parse az (exporter_url.text az (runtimeInfo e)) = None →
  utils.StorageSasKeyType (runtimeInfo e) = "Container" →
  createContainerURL az (runtimeInfo e) log
  = ((exporter_url.text az (runtimeInfo e), None), log)
  ∧ Export az e items log
    = upload_loop az e (exporter_url.text az (runtimeInfo e)) items log.
Proof.
  intros Hconf Hparse Hkey.
  assert (Hc : createContainerURL az (runtimeInfo e) log
               = ((exporter_url.text az (runtimeInfo e), None), log)).
  { rewrite createContainerURL_configured by done. cbv zeta.
    by rewrite Hparse, Hkey. }
  split; [done|]. unfold Export, Go.bind. by rewrite Hc.
Qed.

(** X11. With the storage settings given, a URL that parses and a SAS key
    of another type, the container is created once, first. A refusal that
    is a storage error with the code [ContainerAlreadyExists] counts as
    success and [Export] goes on to the uploads; any other refusal makes
    [Export] return it wrapped, and no upload is attempted. *)
Theorem Export_container_creation
    (e : AzureBlobExporter) (items : list (string * string)) (log : list NetCall) :
  exporter_url.configured (runtimeInfo e) →
  url_Parse az (exporter_url.text az (runtimeInfo e)) = None →
  storageKeyTypes !! utils.StorageSasKeyType (runtimeInfo e) = None →
  let url := exporter_url.text az (runtimeInfo e) in
  let created := log ++ [Container_Create url] in
  match Create az url with
  | None => Export az e items log = upload_loop az e url items created
  | Some refusal =>
      if bool_decide (ServiceCode refusal = Some "ContainerAlreadyExists")
      then Export az e items log = upload_loop az e url items created
      else ∃ prefix,
             Export az e items log = (Some (Go.Errorf_w prefix (cause refusal)), created)
             ∧ prefix = match ServiceCode refusal with
                        | Some _ => "create container with storage error: "
                        | None => "create container: "
                        end
  end.
Proof.
  intros Hconf Hparse Hkey url created.
  subst url created.
  unfold Export, Go.bind. rewrite createContainerURL_configured by done.
  cbv zeta. rewrite Hparse, Hkey.
  destruct (Create az _) as [refusal|]; [|done].
  destruct (ServiceCode refusal) as [code|] eqn:Hcode.
  - case_bool_decide as Hexists.
    + injection Hexists as ->. done.
    + destruct (String.eqb_spec code ServiceCodeContainerAlreadyExists) as [->|Hne].
      * done.
      * by eexists.
  - rewrite bool_decide_eq_false_2 by done. by eexists.
Qed.

(** The loop uploads a prefix of the items, in order, and returns nil only
    at the end of them. *)
Lemma upload_loop_shape (e : AzureBlobExporter) (containerURL : string)
    (items : list (string * string)) (log : list NetCall) :
  (Go.eval (upload_loop az e containerURL items) log = None
   ↔ ∀ item, item ∈ items → Upload az containerURL (blobName e item.1) item.2 = None)
  ∧ ∃ n, (n ≤ length items)%nat
         ∧ Go.exec (upload_loop az e containerURL items) log
           = log ++ (upload_call e containerURL <$> take n items)
         ∧ (Go.eval (upload_loop az e containerURL items) log = None → n = length items).
Proof.
  revert log. induction items as [|[k d] items IH]; intros log.
  - split; [split; [by intros _ ? ?%elem_of_nil|done]|].
    exists 0%nat. simpl. by rewrite app_nil_r.
  - unfold Go.eval, Go.exec. simpl. unfold Go.bind, net. simpl.
    destruct (Upload az containerURL (blobName e k) d) as [err|] eqn:Hup; simpl.
    + split.
      * split; [done|]. intros Hall.
        specialize (Hall (k, d) ltac:(by left)). simpl in Hall. congruence.
      * exists 1%nat. split_and!; [lia|done|done].
    + destruct (IH (log ++ [UploadStreamToBlockBlob containerURL (blobName e k) d]))
        as (Hiff & n & Hn & Hexec & Hnil).
      unfold Go.eval, Go.exec in *. split.
      * rewrite Hiff. split.
        -- intros Hall item [->|Hin]%elem_of_cons; [done|by apply Hall].
        -- intros Hall item Hin. apply Hall. by right.
      * exists (Datatypes.S n). split_and!; [lia| |by intros ->%Hnil].
        rewrite Hexec. simpl. by rewrite <- app_assoc.
Qed.

(** X12. Once the container URL is obtained, [Export] returns nil exactly
    when the upload of every item succeeds, an empty producer included, and
    it has then uploaded every item once, in the order of the iteration. *)
Theorem Export_succeeds_when_every_upload_does
    (e : AzureBlobExporter) (items : list (string * string)) (log : list NetCall) :
  let ready := createContainerURL az (runtimeInfo e) log in
  ready.1.2 = None →
  (Go.eval (Export az e items) log = None
   ↔ ∀ item, item ∈ items → Upload az ready.1.1 (blobName e item.1) item.2 = None)
  ∧ (Go.eval (Export az e items) log = None →
     Go.exec (Export az e items) log
     = ready.2 ++ (upload_call e ready.1.1 <$> items)).
Proof.
  intros ready Hready.
  unfold Go.eval, Go.exec, Export, Go.bind. fold ready.
  destruct ready as [[url cerr] log'] eqn:Hr. simpl in *. subst cerr.
  destruct (upload_loop_shape e url items log') as (Hiff & n & Hn & Hexec & Hnil).
  unfold Go.eval, Go.exec in *. split; [done|].
  intros Hok. rewrite Hexec, (Hnil Hok). by rewrite firstn_all.
Qed.

Lemma createContainerURL_shape (runtimeInfo : utils.RuntimeInfo) (log : list NetCall) :
  let ready := createContainerURL az runtimeInfo log in
  (ready.2 = log
   ∨ ready.2 = log ++ [Container_Create (exporter_url.text az runtimeInfo)])
  ∧ (ready.1.2 = None → ready.1.1 = exporter_url.text az runtimeInfo).
Proof.
  intros ready. subst ready.
  destruct (String.eqb (utils.StorageAccountName runtimeInfo) ""
            || String.eqb (utils.StorageSasKey runtimeInfo) ""
            || String.eqb (utils.StorageContainerName runtimeInfo) "") eqn:Htest.
  - unfold createContainerURL. rewrite Htest. simpl. split; [by left|done].
  - rewrite createContainerURL_configured.
    + cbv zeta.
      destruct (url_Parse az _); [split; [by left|done]|].
      destruct (storageKeyTypes !! _); [split; [by left|done]|].
      destruct (Create az _) as [err|]; [|split; [by right|done]].
      destruct (ServiceCode err) as [code|]; [|split; [by right|done]].
      destruct (String.eqb code _); (split; [by right|done]).
    + rewrite !orb_false_iff, !String.eqb_neq in Htest. by destruct Htest as [[? ?] ?].
Qed.

(** X13. Whatever the storage service answers, the calls [Export] makes
    are at most one creation of the container, first, and then uploads of
    the first items of the iteration, one per item and in its order, under
    the container URL built from the settings; when [Export] returns nil
    every item was uploaded. *)
Theorem Export_calls_in_order
    (e : AzureBlobExporter) (items : list (string * string)) (log : list NetCall) :
  let url := exporter_url.text az (runtimeInfo e) in
  ∃ created n,
    (created = [] ∨ created = [Container_Create url])
    ∧ (n ≤ length items)%nat
    ∧ Go.exec (Export az e items) log
      = log ++ created ++ (upload_call e url <$> take n items)
    ∧ (Go.eval (Export az e items) log = None → n = length items).
Proof.
  intros url.
  destruct (createContainerURL_shape (runtimeInfo e) log) as (Hlog & Hurl).
  unfold Go.eval, Go.exec, Export, Go.bind. fold url in Hlog, Hurl.
  destruct (createContainerURL az (runtimeInfo e) log) as [[url' cerr] log'].
  simpl in *.
  assert (∃ created, (created = [] ∨ created = [Container_Create url])
                     ∧ log' = log ++ created) as (created & Hcreated & ->).
  { destruct Hlog as [->| ->]; [exists []|eexists]; (split; [by eauto|]);
      by rewrite ?app_nil_r. }
  exists created.
  destruct cerr as [err|]; simpl.
  - exists 0%nat. split_and!; [done|lia| |done]. by rewrite !app_nil_r.
  - rewrite Hurl by done.
    destruct (upload_loop_shape e url items (log ++ created))
      as (_ & n & Hn & Hexec & Hnil).
    unfold Go.eval, Go.exec in *.
    exists n. split_and!; [done|done| |done]. by rewrite Hexec, <- app_assoc.
Qed.


(** X15. [ExportReader] makes the calls [Export] makes for the single item
    of that name and content, and fails exactly when it does; when it is
    the upload that fails, [ExportReader] returns the error of the upload
    as it is, which [Export] wraps with the name. *)
Theorem ExportReader_as_Export_of_one_item
    (e : AzureBlobExporter) (name content : string) (log : list NetCall) :
  Go.exec (ExportReader az e name content) log
  = Go.exec (Export az e [(name, content)]) log
  ∧ (Go.eval (ExportReader az e name content) log = None
     ↔ Go.eval (Export az e [(name, content)]) log = None)
  ∧ (∀ err, Go.eval (ExportReader az e name content) log = Some err →
       Go.eval (Export az e [(name, content)]) log = Some err
       ∧ (createContainerURL az (runtimeInfo e) log).1.2 = Some err
       ∨ Go.eval (Export az e [(name, content)]) log
         = Some (Go.Errorf_w ("append file " +:+ name +:+ " to blob: ") err)
         ∧ (createContainerURL az (runtimeInfo e) log).1.2 = None).
Proof.
  unfold Go.exec, Go.eval, ExportReader, Export, Go.bind.
  destruct (createContainerURL az (runtimeInfo e) log) as [[url cerr] log'].
  simpl. destruct cerr as [cerr|]; simpl.
  - split_and!; [done|done|]. intros err [= <-]. by left.
  - unfold Go.bind, net, Go.ret. simpl.
    destruct (Upload az url (blobName e name) content) as [uerr|]; simpl.
    + split_and!; [done|done|]. intros err [= <-]. by right.
    + done.
Qed.

End export_more.

Lemma Export_container_key_creates_nothing_witness :
  let az := sample.azure_refusing "" in
  let e := {| exporter.runtimeInfo := sample_more.node_container_key;
              exporter.creationTime := "2022-10-04T09:15:00Z" |} in
  let url := "https://periscope.blob.core.windows.net/logs?sv=2020&sig=abc" in
  exporter.createContainerURL az sample_more.node_container_key [] = ((url, None), [])
  ∧ exporter.Export az e [("dns", "a")] []
    = exporter.upload_loop az e url [("dns", "a")] [].
Proof.
  intros az e url.
  apply (Export_container_key_creates_nothing az e [("dns", "a")] []).
  - by repeat split.
  - reflexivity.
  - reflexivity.
Defined.

Lemma Export_container_creation_witness :
  let e := sample.run1 in
  let url := "https://periscope.blob.core.windows.net/logs?sv=2020&sig=abc" in
  exporter.Export (sample_more.azure_answering "ContainerAlreadyExists") e [("dns", "a")] []
  = exporter.upload_loop (sample_more.azure_answering "ContainerAlreadyExists") e url
      [("dns", "a")] [exporter.Container_Create url]
  ∧ ∃ prefix,
      exporter.Export (sample_more.azure_answering "AuthenticationFailed") e
        [("dns", "a")] []
      = (Some (Go.Errorf_w prefix (Go.opaque "AuthenticationFailed")),
         [exporter.Container_Create url])
      ∧ prefix = "create container with storage error: ".
Proof.
  intros e url. split.
  - apply (Export_container_creation
             (sample_more.azure_answering "ContainerAlreadyExists") e [("dns", "a")] []);
      [by repeat split|reflexivity|reflexivity].
  - apply (Export_container_creation
             (sample_more.azure_answering "AuthenticationFailed") e [("dns", "a")] []);
      [by repeat split|reflexivity|reflexivity].
Defined.

Lemma Export_succeeds_when_every_upload_does_witness :
  let az := sample.azure_refusing "2022-10-04T09-15-00Z/aks-node-1/nodes" in
  Go.eval (exporter.Export az sample.run1 []) [] = None
  ∧ Go.exec (exporter.Export az sample.run1 []) []
    = [exporter.Container_Create
         "https://periscope.blob.core.windows.net/logs?sv=2020&sig=abc"].
Proof.
  intros az.
  pose proof (Export_succeeds_when_every_upload_does az sample.run1 [] [] eq_refl)
    as [Hiff Hlog].
  assert (Hnil : Go.eval (exporter.Export az sample.run1 []) [] = None).
  { apply Hiff. by intros item ?%elem_of_nil. }
  split; [exact Hnil|exact (Hlog Hnil)].
Defined.

(** ** The SystemPerf collector, continued *)

Section systemperf_more.
Import systemperf systemperf_rows.

Lemma node_loop_converts (items : list Usage) (noderesult : list NodeMetrics)
    (err : option Go.error) :
  (∀ u, u ∈ items → converts u) →
  node_loop items noderesult err = inl (noderesult ++ (node_row <$> items)).
Proof.
  revert noderesult. induction items as [|u items IH]; intros noderesult Hok.
  - simpl. by rewrite app_nil_r.
  - simpl. pose proof (Hok u ltac:(by left)) as Hu. unfold converts in Hu.
    destruct (Memory_AsInt64 u) as [mem ok] eqn:Hmem. simpl in Hu. subst ok. simpl.
    rewrite IH by (intros ? ?; apply Hok; by right).
    rewrite <- app_assoc. simpl. unfold node_row. by rewrite Hmem.
Qed.

Lemma container_loop_converts (podContainers : list Usage)
    (podresult : list PodMetrics) (err : option Go.error) :
  (∀ u, u ∈ podContainers → converts u) →
  container_loop podContainers podresult err
  = inl (podresult ++ (container_row <$> podContainers)).
Proof.
  revert podresult. induction podContainers as [|u items IH]; intros podresult Hok.
  - simpl. by rewrite app_nil_r.
  - simpl. pose proof (Hok u ltac:(by left)) as Hu. unfold converts in Hu.
    destruct (Memory_AsInt64 u) as [mem ok] eqn:Hmem. simpl in Hu. subst ok. simpl.
    rewrite IH by (intros ? ?; apply Hok; by right).
    rewrite <- app_assoc. simpl. unfold container_row. by rewrite Hmem.
Qed.

Lemma container_loop_not_ok (podContainers : list Usage)
    (podresult : list PodMetrics) (err : option Go.error) :
  (∃ u, u ∈ podContainers ∧ ¬ converts u) →
  container_loop podContainers podresult err
  = inr (Some (Go.Errorf "usage memory failure: " err)).
Proof.
  revert podresult.
  induction podContainers as [|u items IH]; intros podresult (bad & Hin & Hbad).
  - by apply elem_of_nil in Hin.
  - simpl. destruct (Memory_AsInt64 u) as [mem ok] eqn:Hmem.
    destruct ok; simpl; [|done].
    apply IH. exists bad. split; [|done].
    apply elem_of_cons in Hin as [->|Hin]; [|done].
    destruct Hbad. unfold converts. by rewrite Hmem.
Qed.

Lemma pod_loop_converts (items : list (list Usage)) (podresult : list PodMetrics)
    (err : option Go.error) :
  (∀ pod u, pod ∈ items → u ∈ pod → converts u) →
  pod_loop items podresult err = inl (podresult ++ (container_row <$> concat items)).
Proof.
  revert podresult. induction items as [|pod items IH]; intros podresult Hok.
  - simpl. by rewrite app_nil_r.
  - simpl. rewrite container_loop_converts by (intros ? ?; eapply Hok; [by left|done]).
    rewrite IH by (intros ? ? ? ?; eapply Hok; [by right|done]).
    by rewrite fmap_app, app_assoc.
Qed.

Lemma pod_loop_not_ok (items : list (list Usage)) (podresult : list PodMetrics)
    (err : option Go.error) :
  (∃ pod u, pod ∈ items ∧ u ∈ pod ∧ ¬ converts u) →
  pod_loop items podresult err = inr (Some (Go.Errorf "usage memory failure: " err)).
Proof.
  revert podresult.
  induction items as [|pod items IH]; intros podresult (bad & u & Hin & Hu & Hbad).
  - by apply elem_of_nil in Hin.
  - simpl.
    destruct (container_loop pod podresult err) as [podresult'|r] eqn:Hloop.
    + apply IH. exists bad, u. split; [|done].
      apply elem_of_cons in Hin as [->|Hin]; [|done].
      rewrite container_loop_not_ok in Hloop by eauto. discriminate.
    + assert (Hdec : (∃ v, v ∈ pod ∧ ¬ converts v) ∨ ∀ v, v ∈ pod → converts v).
      { clear. induction pod as [|v pod IHpod].
        - right. by intros ? ?%elem_of_nil.
        - destruct (decide ((Memory_AsInt64 v).2 = true)) as [Hv|Hv].
          + destruct IHpod as [(w & Hw & Hbad)|Hall].
            * left. exists w. split; [by right|done].
            * right. intros w [->|Hw]%elem_of_cons; [done|by apply Hall].
          + left. exists v. split; [by left|done]. }
      destruct Hdec as [Hbadpod|Hall].
      * rewrite container_loop_not_ok in Hloop by done. congruence.
      * rewrite container_loop_converts in Hloop by done. discriminate.
Qed.

Context `{Json}.

(** X16. When the metrics client is built, both listings succeed, every
    memory usage converts and both lists marshal, [Collect] returns nil and
    stores the two texts under [nodes] and [pods], leaving the other keys:
    [nodes] is the text of one row per node, in the order of the listing,
    and [pods] of one row per container, pod after pod. *)
Theorem Collect_stores_nodes_and_pods
    (cluster : Cluster) (nodes : list Usage) (pods : list (list Usage))
    (jsonNodes jsonPods : string) (data : gmap string string) :
  NewForConfig cluster = None →
  NodeMetricses_List cluster = (nodes, None) →
  PodMetricses_List cluster = (pods, None) →
  (∀ u, u ∈ nodes → converts u) →
  (∀ pod u, pod ∈ pods → u ∈ pod → converts u) →
  Marshal_nodes (node_row <$> nodes) = (jsonNodes, None) →
  Marshal_pods (container_row <$> concat pods) = (jsonPods, None) →
  Collect cluster data
  = (None, <["pods" := jsonPods]> (<["nodes" := jsonNodes]> data)).
Proof.
  intros Hconfig Hnodes Hpods Hnok Hpok Hjn Hjp.
  unfold Collect. rewrite Hconfig, Hnodes.
  rewrite node_loop_converts by done. simpl. rewrite Hjn, Hpods.
  rewrite pod_loop_converts by done. simpl. by rewrite Hjp.
Qed.

(** X17. Whatever the cluster answers, [Collect] writes no key other than
    [nodes] and [pods], writes [pods] only after [nodes], and writes
    [pods] only when it returns nil. *)
Theorem Collect_writes_only_nodes_and_pods
    (cluster : Cluster) (data : gmap string string) :
  let result := (Collect cluster data).1 in
  let data' := (Collect cluster data).2 in
  data' = data
  ∨ (∃ jsonNodes, data' = <["nodes" := jsonNodes]> data)
  ∨ (∃ jsonNodes jsonPods,
       data' = <["pods" := jsonPods]> (<["nodes" := jsonNodes]> data)
       ∧ result = None).
Proof.
  unfold Collect.
  destruct (NewForConfig cluster); [by left|].
  destruct (NodeMetricses_List cluster) as [nodes [err|]]; [by left|].
  destruct (node_loop nodes [] None); [|by left].
  destruct (Marshal_nodes _) as [jn [err|]]; [by left|].
  destruct (PodMetricses_List cluster) as [pods [err|]]; [right; left; by eexists|].
  destruct (pod_loop pods [] None); [|right; left; by eexists].
  destruct (Marshal_pods _) as [jp [err|]]; [right; left; by eexists|].
  right. right. by eexists _, _.
Qed.

(** X18. When the node stage succeeds and the pod listing succeeds, but the
    memory usage of some container does not convert, [Collect] returns an
    error, unlike in the node stage: its message is the prefix followed by
    the print of a nil operand, it wraps nothing, and the [nodes] text
    stays stored while no [pods] text is. *)
Theorem Collect_container_memory_failure
    (cluster : Cluster) (nodes : list Usage) (pods : list (list Usage))
    (jsonNodes : string) (data : gmap string string) :
  NewForConfig cluster = None →
  NodeMetricses_List cluster = (nodes, None) →
  (∀ u, u ∈ nodes → converts u) →
  Marshal_nodes (node_row <$> nodes) = (jsonNodes, None) →
  PodMetricses_List cluster = (pods, None) →
  (∃ pod u, pod ∈ pods ∧ u ∈ pod ∧ ¬ converts u) →
  ∃ err,
    Collect cluster data = (Some err, <["nodes" := jsonNodes]> data)
    ∧ Go.Error err = "usage memory failure: %!w(<nil>)"
    ∧ Go.Unwrap err = None.
Proof.
  intros Hconfig Hnodes Hnok Hjn Hpods Hbad.
  unfold Collect. rewrite Hconfig, Hnodes.
  rewrite node_loop_converts by done. simpl. rewrite Hjn, Hpods.
  rewrite pod_loop_not_ok by done. by eexists.
Qed.

End systemperf_more.

Lemma Collect_stores_nodes_and_pods_witness :
  systemperf.Collect (H := sample.count_json) sample_more.cluster_in_range ∅
  = (None, <["pods" := "2"]> (<["nodes" := "1"]> ∅)).
Proof.
  apply (@Collect_stores_nodes_and_pods sample.count_json sample_more.cluster_in_range
           (systemperf.NodeMetricses_List sample_more.cluster_in_range).1
           (systemperf.PodMetricses_List sample_more.cluster_in_range).1 "1" "2" ∅);
    try reflexivity.
  - intros u ->%list_elem_of_singleton. reflexivity.
  - intros pod u ->%list_elem_of_singleton [->|[->|[]%elem_of_nil]%elem_of_cons]%elem_of_cons;
      reflexivity.
Defined.

Lemma Collect_container_memory_failure_witness :
  ∃ err,
    systemperf.Collect (H := sample.count_json) sample_more.cluster_with_odd_container ∅
    = (Some err, <["nodes" := "1"]> ∅)
    ∧ Go.Error err = "usage memory failure: %!w(<nil>)"
    ∧ Go.Unwrap err = None.
Proof.
  apply (@Collect_container_memory_failure sample.count_json
           sample_more.cluster_with_odd_container
           (systemperf.NodeMetricses_List sample_more.cluster_with_odd_container).1
           (systemperf.PodMetricses_List sample_more.cluster_with_odd_container).1 "1" ∅);
    try reflexivity.
  - intros u ->%list_elem_of_singleton. reflexivity.
  - eexists _, _. split; [by left|]. split; [right; by left|]. discriminate.
Defined.

(** ** The runtime information *)

Section runtime_facts.
Variable GOOS : string.
Variable Fields : string → list string.
Import runtime_info.

Lemma length_zero_empty (s : string) : Nat.eqb (String.length s) 0 = true ↔ s = "".
Proof. destruct s; simpl; split; done. Qed.

(** X19. [GetRuntimeInfo] fails exactly when [HOST_NODE_NAME] is unset or
    empty, with a message that names the variable. Otherwise the host node
    name of the result is that value, the storage settings are the values
    of their variables (empty when unset), and the node logs are read from
    the Linux list on Linux and from the Windows list on every other
    system. *)
Theorem GetRuntimeInfo_outcome (env : gmap string string) :
  match GetRuntimeInfo GOOS Fields env with
  | inr err =>
      Getenv env "HOST_NODE_NAME" = ""
      ∧ Go.Error err = "HOST_NODE_NAME value not set for container."
  | inl info =>
      utils.HostNodeName info = Getenv env "HOST_NODE_NAME"
      ∧ utils.HostNodeName info ≠ ""
      ∧ utils.OSIdentifier info = GOOS
      ∧ utils.StorageAccountName info = Getenv env "AZURE_BLOB_ACCOUNT_NAME"
      ∧ utils.StorageSasKey info = Getenv env "AZURE_BLOB_SAS_KEY"
      ∧ utils.StorageContainerName info = Getenv env "AZURE_BLOB_CONTAINER_NAME"
      ∧ utils.StorageSasKeyType info = Getenv env "AZURE_STORAGE_SAS_KEY_TYPE"
      ∧ utils.NodeLogs info
        = Fields (Getenv env (if decide (GOOS = "linux")
                              then "DIAGNOSTIC_NODELOGS_LIST_LINUX"
                              else "DIAGNOSTIC_NODELOGS_LIST_WINDOWS"))
  end.
Proof.
  unfold GetRuntimeInfo.
  destruct (Nat.eqb (String.length (Getenv env "HOST_NODE_NAME")) 0) eqn:Hlen.
  - apply length_zero_empty in Hlen. done.
  - simpl. split_and!; try done.
    + intros Hempty. apply length_zero_empty in Hempty. congruence.
    + destruct (String.eqb_spec GOOS "linux") as [->|Hne].
      * by rewrite decide_True.
      * by rewrite decide_False.
Qed.

(** X20. On a runtime information read from an environment in which the
    storage account name, the SAS key or the container name is unset or
    empty, [Export] and [ExportReader] refuse with [Storage not
    configured.] and call nothing; the storage settings count as given
    exactly when the three variables are set to values that are not
    empty. *)
Theorem Export_on_environment
    (env : gmap string string) (info : utils.RuntimeInfo) (az : exporter.Azure)
    (creationTime : string) (items : list (string * string))
    (name content : string) (log : list exporter.NetCall) :
  GetRuntimeInfo GOOS Fields env = inl info →
  let e := {| exporter.runtimeInfo := info; exporter.creationTime := creationTime |} in
  (exporter_url.configured info
   ↔ (∃ v, env !! "AZURE_BLOB_ACCOUNT_NAME" = Some v ∧ v ≠ "")
     ∧ (∃ v, env !! "AZURE_BLOB_SAS_KEY" = Some v ∧ v ≠ "")
     ∧ (∃ v, env !! "AZURE_BLOB_CONTAINER_NAME" = Some v ∧ v ≠ ""))
  ∧ (¬ exporter_url.configured info →
     exporter.Export az e items log
     = (Some (Go.errors_New "Storage not configured."), log)
     ∧ exporter.ExportReader az e name content log
       = (Some (Go.errors_New "Storage not configured."), log)).
Proof.
  intros Hinfo e. unfold GetRuntimeInfo in Hinfo.
  destruct (Nat.eqb (String.length (Getenv env "HOST_NODE_NAME")) 0); [done|].
  assert (utils.StorageAccountName info = Getenv env "AZURE_BLOB_ACCOUNT_NAME"
          ∧ utils.StorageSasKey info = Getenv env "AZURE_BLOB_SAS_KEY"
          ∧ utils.StorageContainerName info = Getenv env "AZURE_BLOB_CONTAINER_NAME")
    as (Ha & Hk & Hc) by (by injection Hinfo as <-).
  assert (Hset : ∀ key, Getenv env key ≠ "" ↔ ∃ v, env !! key = Some v ∧ v ≠ "").
  { intros key. unfold Getenv. destruct (env !! key) as [v|]; simpl.
    - split; [by exists v|by intros (? & [= <-] & ?)].
    - split; [done|by intros (? & ? & ?)]. }
  split.
  - unfold exporter_url.configured. by rewrite Ha, Hk, Hc, !Hset.
  - intros Hnot.
    assert (Hc' : exporter.createContainerURL az info log
                  = (("", Some (Go.errors_New "Storage not configured.")), log)).
    { unfold exporter.createContainerURL.
      destruct (String.eqb (utils.StorageAccountName info) ""
                || String.eqb (utils.StorageSasKey info) ""
                || String.eqb (utils.StorageContainerName info) "") eqn:Htest; [done|].
      destruct Hnot. rewrite !orb_false_iff, !String.eqb_neq in Htest.
      by destruct Htest as [[? ?] ?]. }
    unfold exporter.Export, exporter.ExportReader, Go.bind. simpl. by rewrite Hc'.
Qed.

End runtime_facts.

Lemma Export_on_environment_witness :
  ∃ info,
    runtime_info.GetRuntimeInfo "linux" (λ _, []) sample_more.bare_env = inl info
    ∧ exporter.Export (sample.azure_refusing "")
        {| exporter.runtimeInfo := info; exporter.creationTime := "2022-10-04T09:15:00Z" |}
        [("dns", "a")] []
      = (Some (Go.errors_New "Storage not configured."), []).
Proof.
  eexists. split; [reflexivity|].
  apply (Export_on_environment "linux" (λ _, []) sample_more.bare_env _
           (sample.azure_refusing "") "2022-10-04T09:15:00Z" [("dns", "a")] "" "" []
           eq_refl).
  intros (Hname & _). by apply Hname.
Defined.

(** ** The remote trace collector *)

Section gadget_facts.
Variable Linux : string.
Variable Quote : string → string.
Variable kube : inspektor_gadget.Kube.
Import inspektor_gadget.

Lemma length_append (a b : string) :
  String.length (a +:+ b) = (String.length a + String.length b)%nat.
Proof. induction a as [|c a IH]; simpl; [done|]. by rewrite IH. Qed.

Lemma append_inv_tail (a b s : string) : a +:+ s = b +:+ s → a = b.
Proof.
  revert b. induction a as [|c a IH]; intros [|d b] Heq; simpl in Heq.
  - done.
  - apply (f_equal String.length) in Heq. simpl in Heq. rewrite !length_append in Heq. simpl in Heq. lia.
  - apply (f_equal String.length) in Heq. simpl in Heq. rewrite !length_append in Heq. simpl in Heq. lia.
  - injection Heq as -> Heq. f_equal. by apply IH.
Qed.

Lemma HasPrefix_spec (s prefix : string) :
  strings_more.HasPrefix s prefix = true ↔ ∃ rest, s = prefix +:+ rest.
Proof.
  revert s. induction prefix as [|c prefix IH]; intros s; simpl.
  - split; [by exists s|by destruct s].
  - destruct s as [|d s].
    + split; [done|by intros (? & ?)].
    + simpl. rewrite andb_true_iff, IH. split.
      * intros [->%Ascii.eqb_eq (rest & ->)]. by exists rest.
      * intros (rest & [= -> ->]). split; [apply Ascii.eqb_refl|by exists rest].
Qed.

(** [strings.Contains] holds exactly of the strings in which the text
    occurs. *)
Lemma Contains_spec (s substr : string) :
  strings_more.Contains s substr = true ↔ strings.mentions s substr.
Proof.
  unfold strings.mentions. induction s as [|c s IH]; cbn [strings_more.Contains].
  - rewrite orb_false_r, HasPrefix_spec. split.
    + intros (rest & ->). by exists "", rest.
    + intros ([|? ?] & after & Heq); [by exists after|done].
  - rewrite orb_true_iff, HasPrefix_spec, IH. split.
    + intros [(rest & ->)|(before & after & ->)]; [by exists "", rest|].
      by exists (String c before), after.
    + intros ([|d before] & after & Heq); [left; by exists after|].
      right. injection Heq as -> ->. by exists before, after.
Qed.

Lemma pod_on_node_spec (items : list Pod) (hostNodeName : string) :
  match pod_on_node items hostNodeName with
  | Some name =>
      ∃ before pod after,
        items = before ++ pod :: after
        ∧ Name pod = name ∧ Spec_NodeName pod = hostNodeName
        ∧ ∀ p, p ∈ before → Spec_NodeName p ≠ hostNodeName
  | None => ∀ p, p ∈ items → Spec_NodeName p ≠ hostNodeName
  end.
Proof.
  induction items as [|pod items IH]; simpl.
  - by intros ? ?%elem_of_nil.
  - destruct (String.eqb_spec (Spec_NodeName pod) hostNodeName) as [Heq|Hne].
    + exists [], pod, items. split_and!; [done..|]. by intros ? ?%elem_of_nil.
    + destruct (pod_on_node items hostNodeName) as [name|].
      * destruct IH as (before & p & after & -> & Hname & Hnode & Hbefore).
        exists (pod :: before), p, after. split_and!; [done..|].
        intros q [->|Hq]%elem_of_cons; [done|by apply Hbefore].
      * intros q [->|Hq]%elem_of_cons; [done|by apply IH].
Qed.

(** X21. [getGadgetPodName] lists the pods of the [gadget] namespace once.
    It returns the name of the first pod of the listing that runs on the
    host node, with a nil error; it returns an error, and the empty name,
    exactly when the listing fails, the error wrapping the cause, or when
    no pod of the listing runs on the node. *)
Theorem getGadgetPodName_first_pod_on_node
    (collector : InspektorGadgetTraceCollector) (log : list KubeCall) :
  let result := Go.eval (getGadgetPodName Quote kube collector) log in
  let host := utils.HostNodeName (runtimeInfo collector) in
  Go.exec (getGadgetPodName Quote kube collector) log = log ++ [Pods_List "gadget"]
  ∧ match result.2 with
    | None =>
        (gadget_pods kube).2 = None
        ∧ ∃ before pod after,
            (gadget_pods kube).1 = before ++ pod :: after
            ∧ Name pod = result.1 ∧ Spec_NodeName pod = host
            ∧ ∀ p, p ∈ before → Spec_NodeName p ≠ host
    | Some err =>
        result.1 = ""
        ∧ ((∃ cause, (gadget_pods kube).2 = Some cause
                     ∧ err = Go.Errorf_w "could not list gadget pods: " cause)
           ∨ (gadget_pods kube).2 = None
             ∧ ∀ p, p ∈ (gadget_pods kube).1 → Spec_NodeName p ≠ host)
    end.
Proof.
  intros result host. subst result host.
  unfold Go.eval, Go.exec, getGadgetPodName, Go.bind, kube_call. simpl.
  destruct (gadget_pods kube) as [items [cause|]]; simpl.
  - split; [done|]. split; [done|]. left. by exists cause.
  - pose proof (pod_on_node_spec items (utils.HostNodeName (runtimeInfo collector)))
      as Hspec.
    destruct (pod_on_node items _) as [name|]; simpl.
    + by split.
    + split; [done|]. split; [done|]. by right.
Qed.

(** X22. [CheckSupported] of the remote trace collector returns nil exactly
    when the system is Linux, the listing of the resource definitions
    succeeds and the name of one of them contains
    [traces.gadget.kinvolk.io]. On another system the cluster is not
    called at all. The error of a failed listing does not carry the
    cause. *)
Theorem gadget_CheckSupported_outcome
    (collector : InspektorGadgetTraceCollector) (log : list KubeCall) :
  let result := Go.eval (CheckSupported Linux kube collector) log in
  let after := Go.exec (CheckSupported Linux kube collector) log in
  (result = None
   ↔ osIdentifier collector = Linux
     ∧ (crd_names kube).2 = None
     ∧ ∃ crd, crd ∈ (crd_names kube).1
              ∧ strings.mentions crd "traces.gadget.kinvolk.io")
  ∧ after = (if decide (osIdentifier collector = Linux)
             then log ++ [GetCRDUnstructuredList] else log)
  ∧ (∀ err, result = Some err → Go.Unwrap err = None).
Proof.
  intros result after. subst result after.
  assert (Hcrd : ∀ items, has_trace_crd items = true
                 ↔ ∃ crd, crd ∈ items ∧ strings.mentions crd "traces.gadget.kinvolk.io").
  { induction items as [|crd items IH]; simpl.
    - split; [done|]. by intros (? & ?%elem_of_nil & _).
    - destruct (strings_more.Contains crd _) eqn:Hc.
      + apply Contains_spec in Hc. split; [|done]. intros _. exists crd. by split; [left|].
      + rewrite IH. split.
        * intros (c & Hin & Hm). exists c. by split; [right|].
        * intros (c & [->|Hin]%elem_of_cons & Hm); [|by exists c].
          apply Contains_spec in Hm. congruence. }
  unfold Go.eval, Go.exec, CheckSupported.
  destruct (String.eqb_spec (osIdentifier collector) Linux) as [Hos|Hos]; simpl.
  - rewrite decide_True by done.
    unfold Go.bind, kube_call. simpl.
    destruct (crd_names kube) as [items [cause|]]; simpl.
    + split_and!; [split; [done|by intros (_ & ? & _)]|done|by intros ? [= <-]].
    + destruct (has_trace_crd items) eqn:Hhas; simpl.
      * apply Hcrd in Hhas. split_and!; [done|done|done].
      * split_and!; [|done|by intros ? [= <-]].
        split; [done|]. intros (_ & _ & Hex). apply Hcrd in Hex. congruence.
  - rewrite decide_False by done.
    split_and!; [split; [done|by intros (? & _)]|done|by intros ? [= <-]].
Qed.

(** X23. On one node, the trace names of two gadgets are equal only when
    the gadget names are: the name is the gadget name, a dash and the host
    node name. *)
Theorem getTraceName_distinct
    (collector : InspektorGadgetTraceCollector) (gadget1 gadget2 : string) :
  getTraceName collector gadget1 = getTraceName collector gadget2 ↔ gadget1 = gadget2.
Proof.
  split; [|by intros ->]. unfold getTraceName. apply append_inv_tail.
Qed.

End gadget_facts.

(** ** The fixture of the package tests *)

Section fixture_facts.
Variable o : testfixture.Outcomes.
Import testfixture.

(** [runTests], call by call. *)
Lemma runTests_run (fixture : ClusterFixture) (log : list Call) :
  runTests o fixture log
  = (match CheckDockerImages_err o with Some _ => 1 | None => Run_code o end,
     Go.exec (Cleanup o fixture)
       (log ++ [m_Run]
            ++ (if bool_decide (Run_code o ≠ 0) then [PrintDiagnostics] else [])
            ++ [CheckDockerImages]
            ++ match CheckDockerImages_err o with
               | Some err =>
                   [log_Printf
                      ("Failing due to unexpected Docker image usage (see test.dockerImageManager): "
                       +:+ Go.Error err)]
               | None => []
               end)).
Proof.
  unfold runTests, Go.func, Go.fbind, Go.defer, Go.lift, Go.Return, Go.fret, call.
  simpl.
  case_bool_decide as Hcode; simpl;
    destruct (CheckDockerImages_err o) as [err|]; simpl;
    unfold Go.exec, Go.bind;
    rewrite (run_pair (Cleanup o fixture)); simpl;
    by rewrite <- ?app_assoc.
Qed.

(** X24. [runTests] runs the tests, prints the diagnostics exactly when
    their exit code is not zero, and checks the Docker images in every
    case; it returns 1 when that check fails, whatever the exit code of the
    tests, and the exit code of the tests otherwise, so zero exactly when
    the tests passed and the check did. The calls of [Cleanup] come last,
    on every path. *)
Theorem runTests_outcome (fixture : ClusterFixture) (log : list Call) :
  let code := Go.eval (runTests o fixture) log in
  (code = match CheckDockerImages_err o with Some _ => 1 | None => Run_code o end)
  ∧ (code = 0 ↔ Run_code o = 0 ∧ CheckDockerImages_err o = None)
  ∧ ∃ body,
      Go.exec (runTests o fixture) log
      = Go.exec (Cleanup o fixture) (log ++ body)
      ∧ (PrintDiagnostics ∈ body ↔ Run_code o ≠ 0)
      ∧ CheckDockerImages ∈ body
      ∧ body !! 0%nat = Some m_Run.
Proof.
  intros code. subst code.
  unfold Go.eval. unfold Go.exec at 1. rewrite runTests_run. simpl.
  split_and!.
  - done.
  - destruct (CheckDockerImages_err o); split; (done || lia || by intros [? ?]).
  - eexists. split; [reflexivity|]. split_and!.
    + case_bool_decide as Hcode.
      * split; [done|]. intros _. set_solver.
      * split; [|done]. intros Hin. exfalso.
        apply elem_of_cons in Hin as [Hin|Hin]; [done|].
        apply elem_of_cons in Hin as [Hin|Hin]; [done|].
        destruct (CheckDockerImages_err o);
          [apply list_elem_of_singleton in Hin|apply elem_of_nil in Hin]; done.
    + set_solver.
    + done.
Qed.

(** [cleanupResources], call by call. *)
Lemma cleanupResources_run (log : list Call) :
  cleanupResources o log
  = match uninstallHelmReleases_err o with
    | Some err => (Some err, log ++ [uninstallHelmReleases])
    | None => (cleanTestNamespaces_err o,
               log ++ [uninstallHelmReleases; cleanTestNamespaces])
    end.
Proof.
  unfold cleanupResources, Go.bind, call, Go.ret. simpl.
  destruct (uninstallHelmReleases_err o); [done|].
  rewrite <- app_assoc. simpl. by destruct (cleanTestNamespaces_err o).
Qed.

(** Cuts the calls of [Cleanup] at the removal of the file, the call after
    the first [n]. *)
Ltac cut_at n :=
  lazymatch goal with
  | |- ∃ cleaning logged, _ ++ ?l = _ ∧ _ =>
      exists (take n l), (drop (Datatypes.S n) l); simpl; split; [reflexivity|]
  end.

(** X25. [Cleanup] does nothing on a fixture without a kubeconfig file. On
    a fixture with one it removes that file in every case, whether or not
    the resources of the cluster could be cleaned, and after cleaning
    them; the resources are cleaned only when the client set and the
    command runner are there too; nothing is called after the removal but
    the log of its failure. *)
Theorem Cleanup_removes_the_kubeconfig (fixture : ClusterFixture) (log : list Call) :
  match KubeConfigFile fixture with
  | None => Go.exec (Cleanup o fixture) log = log
  | Some name =>
      ∃ cleaning logged,
        Go.exec (Cleanup o fixture) log = log ++ cleaning ++ [os_Remove name] ++ logged
        ∧ (cleaning ≠ [] ↔ Clientset fixture = true ∧ CommandRunner fixture = true)
        ∧ (∀ c, c ∈ cleaning →
             c = uninstallHelmReleases ∨ c = cleanTestNamespaces ∨ ∃ msg, c = log_Printf msg)
        ∧ match Remove_err o name with
          | None => logged = []
          | Some _ => ∃ msg, logged = [log_Printf msg]
          end
  end.
Proof.
  unfold Go.exec, Cleanup.
  destruct (KubeConfigFile fixture) as [name|]; simpl.
  - destruct (Clientset fixture), (CommandRunner fixture); simpl;
      unfold Go.bind; try rewrite cleanupResources_run;
      unfold call, Go.ret; simpl.
    + destruct (uninstallHelmReleases_err o) as [e1|]; simpl;
        [|destruct (cleanTestNamespaces_err o) as [e2|]; simpl];
        destruct (Remove_err o name) as [e3|]; simpl;
        rewrite <- ?app_assoc; simpl;
        [cut_at 2%nat|cut_at 2%nat|cut_at 3%nat|cut_at 3%nat|cut_at 2%nat|cut_at 2%nat];
        (split_and!; [done| |by eauto]);
        intros c Hin;
        repeat (apply elem_of_cons in Hin as [->|Hin]; [by eauto|]);
        by apply elem_of_nil in Hin.
    + destruct (Remove_err o name) as [e3|]; simpl; rewrite <- ?app_assoc; simpl;
        (exists []; eexists; split; [reflexivity|]);
        (split_and!; [split; [done|by intros [? ?]]|by intros ? ?%elem_of_nil|by eauto]).
    + destruct (Remove_err o name) as [e3|]; simpl; rewrite <- ?app_assoc; simpl;
        (exists []; eexists; split; [reflexivity|]);
        (split_and!; [split; [done|by intros [? ?]]|by intros ? ?%elem_of_nil|by eauto]).
    + destruct (Remove_err o name) as [e3|]; simpl; rewrite <- ?app_assoc; simpl;
        (exists []; eexists; split; [reflexivity|]);
        (split_and!; [split; [done|by intros [? ?]]|by intros ? ?%elem_of_nil|by eauto]).
  - rewrite andb_false_r. done.
Qed.

(** X26. [installResources] runs its three steps in order and stops at the
    first that fails: it returns nil exactly when the three succeed, a
    failed step is the last call made, and the error returned has the error
    of that step at the bottom of its chain. [cleanupResources] stops at
    the first failure in the same way and returns the error as it is. *)
Theorem fixture_steps_stop_at_first_failure (log : list Call) :
  (∃ steps,
     Go.exec (installResources o) log = log ++ steps
     ∧ steps `prefix_of` [installMetricsServer; installOsm; deployOsmApplications]
     ∧ (Go.eval (installResources o) log = None
        ↔ installMetricsServer_err o = None ∧ installOsm_err o = None
          ∧ deployOsmApplications_err o = None)
     ∧ (Go.eval (installResources o) log = None → length steps = 3%nat)
     ∧ ∀ err, Go.eval (installResources o) log = Some err →
         ∃ cause,
           errors.innermost err = errors.innermost cause
           ∧ (steps = [installMetricsServer] ∧ installMetricsServer_err o = Some cause
              ∨ steps = [installMetricsServer; installOsm] ∧ installOsm_err o = Some cause
              ∨ steps = [installMetricsServer; installOsm; deployOsmApplications]
                ∧ deployOsmApplications_err o = Some cause))
  ∧ (∃ steps,
       Go.exec (cleanupResources o) log = log ++ steps
       ∧ steps `prefix_of` [uninstallHelmReleases; cleanTestNamespaces]
       ∧ Go.eval (cleanupResources o) log
         = match uninstallHelmReleases_err o with
           | Some err => Some err
           | None => cleanTestNamespaces_err o
           end
       ∧ (is_Some (uninstallHelmReleases_err o) → steps = [uninstallHelmReleases])).
Proof.
  split.
  - unfold Go.eval, Go.exec, installResources, Go.bind, call, Go.ret. simpl.
    destruct (installMetricsServer_err o) as [e1|]; simpl;
      [|destruct (installOsm_err o) as [e2|]; simpl;
        [|destruct (deployOsmApplications_err o) as [e3|]; simpl]];
      rewrite <- ?app_assoc; simpl;
      (eexists; split; [reflexivity|]);
      (split_and!;
       [by eexists
       |split; [done|by intros (? & ? & ?)]
       |done
       |try done; intros err [= <-];
        lazymatch goal with
        | |- ∃ cause, errors.innermost (Go.Errorf_w _ ?e) = _ ∧ _ =>
            exists e; split; [reflexivity|]; tauto
        end]).
  - unfold Go.eval, Go.exec. rewrite cleanupResources_run.
    destruct (uninstallHelmReleases_err o) as [e1|]; simpl;
      (eexists; split; [reflexivity|]);
      (split_and!; [by eexists|done|try done; by intros [? ?]]).
Qed.

End fixture_facts.
